(** * ai_analyst: a shallow embedding of the filing-to-insight pipeline

    The development follows the two source files of the repository:

    - [financial_analyzer.py]: [get_10k_report_text] and the three prompt
      builders [conduct_financial_analysis], [conduct_swot_analysis] and
      [conduct_risk_simulation];
    - [app.py]: [parse_financial_value], the "Run Full Analysis" handler and
      the three blocks that decode the model's answer into the session
      dictionary.

    Conventions.  A Python [str] is a Rocq [string]: a sequence of
    characters whose code points are below 256 (the literals of this file
    are ASCII).  The session dictionary is a
    [gmap string _].  Builtins of the interpreter and of its standard library
    ([str.strip], [str.replace], [float], [json.loads]) are modelled after
    CPython; the two remote collaborators (filings search, generative model)
    are arguments of the functions that call them. *)

From Stdlib Require Import ZArith String Ascii List Bool Lia.
From stdpp Require Import gmap strings.

Open Scope string_scope.
Open Scope Z_scope.

(** ** Python strings *)

(** One character strings that a Rocq literal cannot hold directly. *)
Definition dq : string := String (ascii_of_nat 34) EmptyString.
Definition LF : ascii := ascii_of_nat 10.
Definition nl : string := String LF EmptyString.

(** [str.isspace] on one character, for code points below 256. *)
Definition is_space (c : ascii) : bool :=
  let n := N_of_ascii c in
  ((9 <=? n) && (n <=? 13) || (28 <=? n) && (n <=? 32)
   || (n =? 133) || (n =? 160))%N.

(** Removal of the characters of a class [sp] at the head and at the end
    of a text. *)
Fixpoint lstrip (sp : ascii -> bool) (s : string) : string :=
  match s with
  | EmptyString => EmptyString
  | String c r => if sp c then lstrip sp r else s
  end.

Fixpoint rstrip (sp : ascii -> bool) (s : string) : string :=
  match s with
  | EmptyString => EmptyString
  | String c r =>
      match rstrip sp r with
      | EmptyString => if sp c then EmptyString else String c EmptyString
      | r' => String c r'
      end
  end.

Definition strip_with (sp : ascii -> bool) (s : string) : string :=
  rstrip sp (lstrip sp s).

(** [s.strip()] *)
Definition strip (s : string) : string := strip_with is_space s.

(** [str.lower] on one character, for code points below 256. *)
Definition lower_char (c : ascii) : ascii :=
  let n := N_of_ascii c in
  if ((65 <=? n) && (n <=? 90)
      || (192 <=? n) && (n <=? 222) && negb (n =? 215))%N
  then ascii_of_N (n + 32) else c.

Fixpoint lower (s : string) : string :=
  match s with
  | EmptyString => EmptyString
  | String c r => String (lower_char c) (lower r)
  end.

(** [s.replace(old, new)] for a pattern [old] that is not empty: the
    occurrences are found from left to right and do not overlap.  [skip]
    counts the characters of a match that are still to be dropped. *)
Fixpoint replace_from (skip : nat) (old new s : string) : string :=
  match s with
  | EmptyString => EmptyString
  | String c r =>
      match skip with
      | S k => replace_from k old new r
      | O =>
          if String.prefix old s
          then new +:+ replace_from (Nat.pred (String.length old)) old new r
          else String c (replace_from O old new r)
      end
  end.

(** With an empty pattern Python inserts [new] before every character and
    at the end. *)
Fixpoint intersperse (new s : string) : string :=
  match s with
  | EmptyString => new
  | String c r => new +:+ String c (intersperse new r)
  end.

Definition replace (old new s : string) : string :=
  match old with
  | EmptyString => intersperse new s
  | _ => replace_from O old new s
  end.

(** [sub in s] *)
Fixpoint contains (sub s : string) : bool :=
  String.prefix sub s
  || match s with
     | EmptyString => false
     | String _ r => contains sub r
     end.

(** [s[:n]] *)
Fixpoint take (n : nat) (s : string) : string :=
  match n, s with
  | S k, String c r => String c (take k r)
  | _, _ => EmptyString
  end.

(** [c] occurs in [s]. *)
Fixpoint has_char (c : ascii) (s : string) : bool :=
  match s with
  | EmptyString => false
  | String x r => Ascii.eqb x c || has_char c r
  end.

(** ** Binary64 numbers and the builtin [float]

    A Python [float] is an IEEE 754 binary64 number.  A finite non zero
    number is [m * 2^e] with [2^52 <= m < 2^53] (normal, [-1074 <= e <= 971])
    or [0 < m < 2^52] and [e = -1074] (subnormal). *)
Inductive F64 : Type :=
  | FZero (neg : bool)
  | FFin (neg : bool) (m e : Z)
  | FInf (neg : bool)
  | FNaN.

(** Nearest binary64 number to the positive rational [p / q], ties to even;
    overflow gives infinity, underflow gives zero. *)
Definition round_pos (neg : bool) (p q : Z) : F64 :=
  let scaled e := if 0 <=? e then p / (q * 2 ^ e) else (p * 2 ^ (- e)) / q in
  let e0 := Z.log2 p - Z.log2 q - 52 in
  let e1 := if scaled e0 <? 2 ^ 52 then e0 - 1
            else if 2 ^ 53 <=? scaled e0 then e0 + 1 else e0 in
  let e := Z.max e1 (-1074) in
  let num := if 0 <=? e then p else p * 2 ^ (- e) in
  let den := if 0 <=? e then q * 2 ^ e else q in
  let m := num / den in
  let r := num mod den in
  let m' := if 2 * r <? den then m
            else if den <? 2 * r then m + 1
            else if Z.even m then m else m + 1 in
  let '(m'', e') := if m' =? 2 ^ 53 then (2 ^ 52, e + 1) else (m', e) in
  if m'' =? 0 then FZero neg
  else if 971 <? e' then FInf neg
  else FFin neg m'' e'.

(** The binary64 number nearest to [d * 10^x], for [0 <= d]. *)
Definition F64_of_decimal (neg : bool) (d x : Z) : F64 :=
  if d =? 0 then FZero neg
  else if 0 <=? x then round_pos neg (d * 10 ^ x) 1
  else round_pos neg d (10 ^ (- x)).

(** [f * k] for a Python [int] [k] with [0 < k < 2^53], which converts to
    binary64 exactly: the exact product, rounded once. *)
Definition F64_mul_int (f : F64) (k : Z) : F64 :=
  match f with
  | FFin neg m e =>
      if 0 <=? e then round_pos neg (m * k * 2 ^ e) 1
      else round_pos neg (m * k) (2 ^ (- e))
  | _ => f
  end.

(** The integer a binary64 number is equal to, when it is one
    ([float.is_integer] and [int]). *)
Definition F64_to_Z (f : F64) : option Z :=
  match f with
  | FZero _ => Some 0
  | FFin neg m e =>
      let sgn z := if neg then - z else z in
      if 0 <=? e then Some (sgn (m * 2 ^ e))
      else if m mod 2 ^ (- e) =? 0 then Some (sgn (m / 2 ^ (- e)))
      else None
  | _ => None
  end.

(** The white space [float] removes around a number: the white space of
    ASCII and, above it, the two spaces of [str.isspace]; not the four
    separators 28 to 31. *)
Definition is_float_space (c : ascii) : bool :=
  let n := N_of_ascii c in
  ((9 <=? n) && (n <=? 13) || (n =? 32) || (n =? 133) || (n =? 160))%N.

Definition is_digit (c : ascii) : bool :=
  let n := N_of_ascii c in ((48 <=? n) && (n <=? 57))%N.

Definition digit_val (c : ascii) : Z := Z.of_N (N_of_ascii c) - 48.

(** Reads a run of decimal digits: the number read so far, how many digits
    were read, and what follows them. *)
Fixpoint digits (s : string) (acc cnt : Z) : Z * Z * string :=
  match s with
  | String c r =>
      if is_digit c then digits r (10 * acc + digit_val c) (cnt + 1)
      else (acc, cnt, s)
  | EmptyString => (acc, cnt, EmptyString)
  end.

(** An underscore is accepted only between two digits. *)
Fixpoint underscores_ok (prev : ascii) (s : string) : bool :=
  match s with
  | EmptyString => negb (Ascii.eqb prev "_")
  | String c r =>
      (if Ascii.eqb c "_" then is_digit prev
       else negb (Ascii.eqb prev "_" && negb (is_digit c)))
      && underscores_ok c r
  end.

Fixpoint remove_char (x : ascii) (s : string) : string :=
  match s with
  | EmptyString => EmptyString
  | String c r => if Ascii.eqb c x then remove_char x r
                  else String c (remove_char x r)
  end.

Definition split_sign (s : string) : bool * string :=
  match s with
  | String c r =>
      if Ascii.eqb c "-" then (true, r)
      else if Ascii.eqb c "+" then (false, r)
      else (false, s)
  | EmptyString => (false, s)
  end.

(** The exponent part: nothing, or [e] or [E], an optional sign and at
    least one digit, up to the end of the text. *)
Definition exponent (s : string) : option Z :=
  match s with
  | EmptyString => Some 0
  | String c r =>
      if Ascii.eqb (lower_char c) "e" then
        let '(neg, r1) := split_sign r in
        match digits r1 0 0 with
        | (v, cnt, EmptyString) =>
            if 0 <? cnt then Some (if neg then - v else v) else None
        | _ => None
        end
      else None
  end.

(** A decimal number without sign: digits, an optional point and digits
    (one digit at least), and an optional exponent. *)
Definition point_digits (v : Z) (s : string) : Z * Z * string :=
  match s with
  | String c r => if Ascii.eqb c "." then digits r v 0 else (v, 0, s)
  | EmptyString => (v, 0, s)
  end.

Definition decimal (neg : bool) (s : string) : option F64 :=
  let '(v1, c1, r1) := digits s 0 0 in
  let '(v2, c2, r2) := point_digits v1 r1 in
  if 0 <? c1 + c2 then
    match exponent r2 with
    | Some x => Some (F64_of_decimal neg v2 (x - c2))
    | None => None
    end
  else None.

(** [float(s)] for a string [s]; [None] stands for [ValueError]. *)
Definition float_of_str (s : string) : option F64 :=
  if underscores_ok zero s then
    let '(neg, r) :=
      split_sign (strip_with is_float_space (remove_char "_" s)) in
    let w := lower r in
    if String.eqb w "inf" || String.eqb w "infinity" then Some (FInf neg)
    else if String.eqb w "nan" then Some FNaN
    else decimal neg r
  else None.

(** ** The Numeric Normalizer: [parse_financial_value] ([app.py]) *)

(** The objects the helper can be handed. *)
#[warnings="-register-all"]
Inductive pyval : Type :=
  | VNone
  | VBool (b : bool)
  | VInt (z : Z)
  | VFloat (f : F64)
  | VStr (s : string)
  | VList (l : list pyval).

(** [isinstance(v, (int, float))]; [bool] is a subclass of [int]. *)
Definition is_number (v : pyval) : bool :=
  match v with
  | VBool _ | VInt _ | VFloat _ => true
  | _ => false
  end.

(** [value_str.lower().replace('$', '').replace(',', '').replace('%', '')] *)
Definition clean (s : string) : string :=
  replace "%" "" (replace "," "" (replace "$" "" (lower s))).

(** The suffix test: the multiplier and the text handed to [float]. *)
Definition suffix (s : string) : Z * string :=
  if contains "b" s then (1000000000, replace "b" "" s)
  else if contains "m" s then (1000000, replace "m" "" s)
  else (1, s).

Definition parse_financial_value (value_str : pyval) : pyval :=
  if is_number value_str then value_str
  else
    match value_str with
    | VStr s =>
        let '(multiplier, s') := suffix (clean s) in
        match float_of_str s' with
        | Some f => VFloat (F64_mul_int f multiplier)
        | None => VInt 0
        end
    | _ => VInt 0
    end.

(** The integer a result is equal to ([==] against an [int]). *)
Definition as_integer (v : pyval) : option Z :=
  match v with
  | VInt z => Some z
  | VBool b => Some (if b then 1 else 0)
  | VFloat f => F64_to_Z f
  | _ => None
  end.

(** ** The FilingLocator: [get_10k_report_text] ([financial_analyzer.py]) *)

(** What the filings search returns: the part of the response the function
    reads.  A field that the response does not carry is [None]. *)
Record DocFile : Type := { documentUrl : option string }.

Record Filing : Type := {
  linkToFilingDetails : option string;
  documentFormatFiles : option (list DocFile)
}.

Record Response : Type := { filings : option (list Filing) }.

(** The query sent to the filings search. *)
Record Query : Type := {
  query_string : string;
  from : string;
  size : string;
  sort : list (string * string)
}.

(** The exceptions that can reach the [except Exception] clause:
    a missing key, an index out of range, or whatever the collaborator
    raised, with its message. *)
Inductive exn : Type :=
  | KeyError (key : string)
  | IndexError
  | ApiError (msg : string).

(** [str(e)] *)
Definition exn_str (e : exn) : string :=
  match e with
  | KeyError k => "'" +:+ k +:+ "'"
  | IndexError => "list index out of range"
  | ApiError msg => msg
  end.

(** A small error monad for the body of the [try] block. *)
Definition M (A : Type) : Type := exn + A.
Definition ret {A} (a : A) : M A := inr a.
Definition raise {A} (e : exn) : M A := inl e.
Definition bind {A B} (m : M A) (k : A -> M B) : M B :=
  match m with
  | inl e => inl e
  | inr a => k a
  end.

Notation "'let*' x := m 'in' k" := (bind m (fun x => k))
  (at level 10, x name, m at level 100, k at level 200).

(** [d[key]] on a response object *)
Definition item {A} (key : string) (field : option A) : M A :=
  match field with
  | Some a => ret a
  | None => raise (KeyError key)
  end.

(** [l[0]] *)
Definition first {A} (l : list A) : M A :=
  match l with
  | a :: _ => ret a
  | [] => raise IndexError
  end.

Definition make_query (ticker : string) : Query :=
  {| query_string := "ticker:" +:+ ticker +:+ " AND formType:"
                     +:+ dq +:+ "10-K" +:+ dq;
     from := "0";
     size := "1";
     sort := [("filedAt", "desc")] |}.

Definition NO_FILINGS : string := "No 10-K filings found for this ticker.".
Definition COULD_NOT_FETCH : string :=
  "Could not fetch data from SEC EDGAR. Error: ".

Section Locator.
(** [query_api.get_filings]: it raises or returns a response. *)
Variable get_filings : Query -> M Response.

(** The body of the [try] block. *)
Definition locate_body (ticker : string) : M (string * option string) :=
  let* r := get_filings (make_query ticker) in
  let* fs := item "filings" (filings r) in
  match fs with
  | [] => ret (NO_FILINGS, None)
  | _ =>
      let* f := first fs in
      let* filing_url :=
        item "linkToFilingDetails" (linkToFilingDetails f) in
      let* files := item "documentFormatFiles" (documentFormatFiles f) in
      let* d := first files in
      let* full_text := item "documentUrl" (documentUrl d) in
      ret (filing_url, Some full_text)
  end.

(** The function returns a pair in every case: the [except] clause turns
    any exception into a message in the first component. *)
Definition get_10k_report_text (ticker : string) : string * option string :=
  match locate_body ticker with
  | inr res => res
  | inl e => (COULD_NOT_FETCH +:+ exn_str e, None)
  end.
End Locator.

(** ** The prompt builders ([financial_analyzer.py])

    Each builder is an f-string: a fixed text around the description of the
    document, and around the market shock for the third one. *)

(** [s] between double quotes *)
Definition q (s : string) : string := dq +:+ s +:+ dq.

Definition financial_head : string :=
  String.concat nl
    [EmptyString;
     "    "].

Definition financial_tail : string :=
  String.concat nl
    [EmptyString;
     "    Perform a financial analysis. Extract key data points in a structured JSON format.";
     "    1.  **Revenue Analysis**: Identify total revenue for the last two fiscal years and calculate the year-over-year growth rate.";
     "    2.  **Profitability**: Find the Gross Profit and Net Income for the last two years. Calculate the gross margin and net profit margin for the most recent year.";
     "    3.  **Cost Structure**: Detail R&D, and SG&A as a percentage of total revenue for the most recent year.";
     "    Provide the output ONLY in valid JSON format. Example:";
     "    {";
     "      " +:+ q "revenue_analysis" +:+ ": { " +:+
       q "current_year_revenue" +:+ ": " +:+ q "100B" +:+ ", " +:+
       q "previous_year_revenue" +:+ ": " +:+ q "90B" +:+ ", " +:+
       q "growth_rate" +:+ ": " +:+ q "11.1%" +:+ " },";
     "      " +:+ q "profitability" +:+ ": { " +:+ q "net_income" +:+ ": " +:+
       q "20B" +:+ ", " +:+ q "net_margin" +:+ ": " +:+ q "20%" +:+ " },";
     "      " +:+ q "cost_structure" +:+ ": { " +:+ q "R&D" +:+ ": " +:+
       q "15%" +:+ ", " +:+ q "SG&A" +:+ ": " +:+ q "25%" +:+ " }";
     "    }";
     "    "].

Definition swot_head : string :=
  String.concat nl
    [EmptyString;
     "    "].

Definition swot_tail : string :=
  String.concat nl
    [EmptyString;
     "    Analyze the 'Business Overview', 'Competition', and 'Risk Factors' sections to create a SWOT analysis.";
     "    For each category (Strengths, Weaknesses, Opportunities, Threats), provide 3 concise bullet points.";
     "    ";
     "    Provide the output ONLY in valid JSON format. Example:";
     "    {";
     "      " +:+ q "strengths" +:+ ": [" +:+ q "Strong brand recognition" +:+
       ", " +:+ q "Diverse product portfolio" +:+ ", " +:+ q "Large user base" +:+
       "],";
     "      " +:+ q "weaknesses" +:+ ": [" +:+
       q "High dependence on a single product" +:+ ", " +:+
       q "Recent data privacy concerns" +:+ ", " +:+
       q "Slower growth in emerging markets" +:+ "],";
     "      " +:+ q "opportunities" +:+ ": [" +:+
       q "Expansion into AI and cloud services" +:+ ", " +:+
       q "Strategic acquisitions of startups" +:+ ", " +:+
       q "Growing demand for digital entertainment" +:+ "],";
     "      " +:+ q "threats" +:+ ": [" +:+
       q "Intense competition from tech giants" +:+ ", " +:+
       q "Evolving regulatory landscape" +:+ ", " +:+
       q "Global economic downturn impacting consumer spending" +:+ "]";
     "    }";
     "    "].

Definition risk_head : string :=
  String.concat nl
    [EmptyString;
     "    You are a strategic advisor to a CFO.";
     "    CONTEXT:";
     "    - **Company's 10-K Report**: "].

Definition risk_middle : string :=
  String.concat nl
    [EmptyString;
     "    - **Hypothetical Market Shock**: "].

Definition risk_tail : string :=
  String.concat nl
    [EmptyString;
     EmptyString;
     "    TASK:";
     "    Analyze the 'Risk Factors' section of the report. Identify the most relevant stated risk. Then, generate three potential impact scenarios (Best Case, Likely Case, Worst Case) from this market shock.";
     "    For each scenario, provide:";
     "    1. A brief description of the outcome.";
     "    2. An estimated quantitative impact on revenue or margins.";
     "    3. One strategic action to mitigate the damage or capitalize on the situation.";
     EmptyString;
     "    Provide the output ONLY in valid JSON format. Example:";
     "    {";
     "      " +:+ q "relevant_risk" +:+ ": " +:+
       q "Dependence on international supply chains." +:+ ",";
     "      " +:+ q "best_case" +:+ ": {";
     "        " +:+ q "scenario" +:+ ": " +:+
       q "Minor supply chain disruptions are quickly rerouted with minimal delay." +:+
       ",";
     "        " +:+ q "impact" +:+ ": " +:+
       q "-1% impact on gross margin for one quarter." +:+ ",";
     "        " +:+ q "mitigation" +:+ ": " +:+
       q "Activate secondary supplier agreements and increase short-term inventory.";
     "      },";
     "      " +:+ q "likely_case" +:+ ": {";
     "        " +:+ q "scenario" +:+ ": " +:+
       q "Significant delays and increased logistics costs for two quarters." +:+
       ",";
     "        " +:+ q "impact" +:+ ": " +:+
       q "-5% revenue and -3% gross margin for the next six months." +:+ ",";
     "        " +:+ q "mitigation" +:+ ": " +:+
       q "Absorb costs and communicate transparently with customers about delays. Expedite diversification of supplier base.";
     "      },";
     "      " +:+ q "worst_case" +:+ ": {";
     "        " +:+ q "scenario" +:+ ": " +:+
       q "A key supplier halts production, causing major product shortages." +:+
       ",";
     "        " +:+ q "impact" +:+ ": " +:+
       q "-15% revenue for the fiscal year." +:+ ",";
     "        " +:+ q "mitigation" +:+ ": " +:+
       q "Immediately seek alternative sourcing and consider a temporary price increase on existing inventory to manage demand.";
     "      }";
     "    }";
     "    "].

(** The number of characters of an inline document that reach the model. *)
Definition TEXT_LIMIT : nat := Z.to_nat 30000.

(** [input_prompt] of [conduct_financial_analysis] *)
Definition financial_input (document_content : string) (is_url : bool)
  : string :=
  if is_url
  then "From the 10-K report at the URL: " +:+ document_content
  else "From the following 10-K report text: "
       +:+ take TEXT_LIMIT document_content.

(** [input_prompt] of [conduct_swot_analysis] and
    [conduct_risk_simulation] *)
Definition company_input (document_content company_name : string)
  (is_url : bool) : string :=
  if is_url
  then "From the 10-K report for " +:+ company_name +:+ " at the URL: "
       +:+ document_content
  else "From the following 10-K report text for " +:+ company_name +:+ ": "
       +:+ take TEXT_LIMIT document_content.

Definition financial_prompt (document_content : string) (is_url : bool)
  : string :=
  financial_head +:+ financial_input document_content is_url
  +:+ financial_tail.

Definition swot_prompt (document_content company_name : string)
  (is_url : bool) : string :=
  swot_head +:+ company_input document_content company_name is_url
  +:+ swot_tail.

Definition risk_prompt (document_content company_name market_shock : string)
  (is_url : bool) : string :=
  risk_head +:+ company_input document_content company_name is_url
  +:+ risk_middle +:+ q market_shock +:+ risk_tail.

Section Extractor.
(** [model.generate_content(prompt).text]: the generative model, from a
    prompt to the text of its answer. *)
Variable generate_content : string -> string.

Definition conduct_financial_analysis (document_content : string)
  (is_url : bool) : string :=
  generate_content (financial_prompt document_content is_url).

Definition conduct_swot_analysis (document_content company_name : string)
  (is_url : bool) : string :=
  generate_content (swot_prompt document_content company_name is_url).

Definition conduct_risk_simulation
  (document_content company_name market_shock : string) (is_url : bool)
  : string :=
  generate_content
    (risk_prompt document_content company_name market_shock is_url).
End Extractor.

(** ** The JSON decoder: [json.loads]

    The decoder of the standard library ([json.decoder], [json.scanner]),
    with its default settings.  An escape [\uXXXX] can name any code point,
    so the text of a decoded string is a list of code points.  The limits of
    the interpreter (depth of recursion, number of digits of an integer) are
    not part of the model. *)
Definition ustr : Type := list N.

(** The code points of a string of the program text. *)
Fixpoint codes (s : string) : ustr :=
  match s with
  | EmptyString => []
  | String c r => N_of_ascii c :: codes r
  end.

(** What [json.loads] returns: [None], [bool], [int], [float], [str],
    [list], and [dict] in insertion order with distinct keys. *)
#[warnings="-register-all"]
Inductive JSON : Type :=
  | JNull
  | JBool (b : bool)
  | JInt (z : Z)
  | JFloat (f : F64)
  | JStr (s : ustr)
  | JList (l : list JSON)
  | JDict (d : list (ustr * JSON)).

Fixpoint ustr_eqb (a b : ustr) : bool :=
  match a, b with
  | [], [] => true
  | x :: a', y :: b' => N.eqb x y && ustr_eqb a' b'
  | _, _ => false
  end.

(** [d[k] = v] on a dictionary: a key already present keeps its place. *)
Fixpoint dict_set (k : ustr) (v : JSON) (d : list (ustr * JSON))
  : list (ustr * JSON) :=
  match d with
  | [] => [(k, v)]
  | (k', v') :: d' =>
      if ustr_eqb k k' then (k, v) :: d' else (k', v') :: dict_set k v d'
  end.

(** [dict(pairs)] *)
Definition dict (pairs : list (ustr * JSON)) : list (ustr * JSON) :=
  fold_left (fun d kv => dict_set (fst kv) (snd kv) d) pairs [].

(** [WHITESPACE]: blank, tab, line feed, carriage return *)
Definition is_ws (c : ascii) : bool :=
  let n := N_of_ascii c in ((n =? 32) || (n =? 9) || (n =? 10) || (n =? 13))%N.

Fixpoint skip_ws (s : string) : string :=
  match s with
  | EmptyString => EmptyString
  | String c r => if is_ws c then skip_ws r else s
  end.

(** [s[n:]] *)
Fixpoint drop (n : nat) (s : string) : string :=
  match n, s with
  | S k, String _ r => drop k r
  | _, _ => s
  end.

Definition hexval (c : ascii) : option N :=
  let n := N_of_ascii c in
  if ((48 <=? n) && (n <=? 57))%N then Some (n - 48)%N
  else if ((65 <=? n) && (n <=? 70))%N then Some (n - 55)%N
  else if ((97 <=? n) && (n <=? 102))%N then Some (n - 87)%N
  else None.

(** The four hexadecimal digits at the head of [s]. *)
Definition hex4 (s : string) : option N :=
  match s with
  | String a (String b (String c (String d _))) =>
      match hexval a, hexval b, hexval c, hexval d with
      | Some x, Some y, Some z, Some w =>
          Some (((x * 16 + y) * 16 + z) * 16 + w)%N
      | _, _, _, _ => None
      end
  | _ => None
  end.

(** [BACKSLASH]: the escapes of one character, a double quote, a backslash,
    a slash, and the letters b, f, n, r and t *)
Definition backslash (c : ascii) : option N :=
  match N_of_ascii c with
  | 34%N | 92%N | 47%N => Some (N_of_ascii c)
  | 98%N => Some 8%N
  | 102%N => Some 12%N
  | 110%N => Some 10%N
  | 114%N => Some 13%N
  | 116%N => Some 9%N
  | _ => None
  end.

(** The escape that follows a backslash: the code point it denotes and the
    number of characters it takes.  A high surrogate followed by the escape
    of a low surrogate makes one code point. *)
Definition escape (r : string) : option (N * nat) :=
  match r with
  | EmptyString => None
  | String e r1 =>
      if Ascii.eqb e "u" then
        match hex4 r1 with
        | None => None
        | Some uni =>
            if (55296 <=? uni)%N && (uni <=? 56319)%N
               && String.prefix "\u" (drop 4 r1)
            then
              match hex4 (drop 6 r1) with
              | None => None
              | Some uni2 =>
                  if (56320 <=? uni2)%N && (uni2 <=? 57343)%N
                  then Some ((65536 + ((uni - 55296) * 1024
                                       + (uni2 - 56320)))%N, 11%nat)
                  else Some (uni, 5%nat)
              end
            else Some (uni, 5%nat)
        end
      else
        match backslash e with
        | Some ch => Some (ch, 1%nat)
        | None => None
        end
  end.

(** [scanstring], strict: the text of a string up to its closing quote and
    what follows it; [None] is a [JSONDecodeError].  [skip] counts the
    characters of an escape that are still to be passed. *)
Fixpoint scanstring (skip : nat) (s : string) (acc : ustr)
  : option (ustr * string) :=
  match s with
  | EmptyString => None
  | String c r =>
      match skip with
      | S k => scanstring k r acc
      | O =>
          if Ascii.eqb c (ascii_of_nat 34) then Some (rev acc, r)
          else if Ascii.eqb c "\" then
            match escape r with
            | Some (ch, k) => scanstring k r (ch :: acc)
            | None => None
            end
          else if (N_of_ascii c <? 32)%N then None
          else scanstring O r (N_of_ascii c :: acc)
      end
  end.

(** [NUMBER_RE] at the head of [s]: an optional minus sign, [0] or a run of
    digits that does not start with [0], an optional fraction, an optional
    exponent.  Without fraction and exponent the number is an [int]. *)
Definition number_frac (v : Z) (s : string) : Z * Z * string :=
  match s with
  | String c (String d r) =>
      if Ascii.eqb c "." && is_digit d then digits (String d r) v 0
      else (v, 0, s)
  | _ => (v, 0, s)
  end.

Definition number_exp (s : string) : option Z * string :=
  match s with
  | String c r =>
      if Ascii.eqb (lower_char c) "e" then
        let '(neg, r1) := split_sign r in
        match r1 with
        | String d _ =>
            if is_digit d then
              let '(v, _, r2) := digits r1 0 0 in
              (Some (if neg then - v else v), r2)
            else (None, s)
        | EmptyString => (None, s)
        end
      else (None, s)
  | EmptyString => (None, s)
  end.

Definition number_body (neg : bool) (r : string) : option (JSON * string) :=
  match r with
  | String c r' =>
      if is_digit c then
        let '(v, _, r1) := if Ascii.eqb c "0" then (0, 1, r')
                           else digits r 0 0 in
        let '(m, fc, r2) := number_frac v r1 in
        let '(ex, r3) := number_exp r2 in
        match ex with
        | None =>
            if fc =? 0 then Some (JInt (if neg then - v else v), r3)
            else Some (JFloat (F64_of_decimal neg m (- fc)), r3)
        | Some x => Some (JFloat (F64_of_decimal neg m (x - fc)), r3)
        end
      else None
  | EmptyString => None
  end.

Definition match_number (s : string) : option (JSON * string) :=
  match s with
  | String c r => if Ascii.eqb c "-" then number_body true r
                  else number_body false s
  | EmptyString => None
  end.

(** The outcome of a bounded run of the scanner: a value, a
    [JSONDecodeError], or a bound that was too small. *)
Inductive result (A : Type) : Type :=
  | Ok (a : A)
  | Error
  | Fuel.
Arguments Ok {A} a.
Arguments Error {A}.
Arguments Fuel {A}.

Definition of_option {A} (o : option A) : result A :=
  match o with
  | Some a => Ok a
  | None => Error
  end.

(** [scan_once], with the loops of [JSONArray] and [JSONObject].  The loop
    of an array starts at a value; the loop of an object starts after the
    opening quote of a key. *)
Fixpoint scan_once (n : nat) (s : string) : result (JSON * string) :=
  match n with
  | O => Fuel
  | S n' =>
      match s with
      | EmptyString => Error
      | String c r =>
          if Ascii.eqb c (ascii_of_nat 34) then
            match scanstring O r [] with
            | Some (t, r') => Ok (JStr t, r')
            | None => Error
            end
          else if Ascii.eqb c "{" then
            match skip_ws r with
            | String c' r' =>
                if Ascii.eqb c' "}" then Ok (JDict [], r')
                else if Ascii.eqb c' (ascii_of_nat 34)
                then JSONObject_loop n' r' []
                else Error
            | EmptyString => Error
            end
          else if Ascii.eqb c "[" then
            match skip_ws r with
            | String c' r' =>
                if Ascii.eqb c' "]" then Ok (JList [], r')
                else JSONArray_loop n' (String c' r') []
            | EmptyString => Error
            end
          else if String.prefix "null" s then Ok (JNull, drop 4 s)
          else if String.prefix "true" s then Ok (JBool true, drop 4 s)
          else if String.prefix "false" s then Ok (JBool false, drop 5 s)
          else
            match match_number s with
            | Some res => Ok res
            | None =>
                if String.prefix "NaN" s then Ok (JFloat FNaN, drop 3 s)
                else if String.prefix "Infinity" s
                then Ok (JFloat (FInf false), drop 8 s)
                else if String.prefix "-Infinity" s
                then Ok (JFloat (FInf true), drop 9 s)
                else Error
            end
      end
  end

with JSONArray_loop (n : nat) (s : string) (values : list JSON)
  : result (JSON * string) :=
  match n with
  | O => Fuel
  | S n' =>
      match scan_once n' s with
      | Ok (value, r) =>
          match skip_ws r with
          | String c r' =>
              if Ascii.eqb c "]" then Ok (JList (rev (value :: values)), r')
              else if Ascii.eqb c ","
              then JSONArray_loop n' (skip_ws r') (value :: values)
              else Error
          | EmptyString => Error
          end
      | Error => Error
      | Fuel => Fuel
      end
  end

with JSONObject_loop (n : nat) (s : string) (pairs : list (ustr * JSON))
  : result (JSON * string) :=
  match n with
  | O => Fuel
  | S n' =>
      match scanstring O s [] with
      | None => Error
      | Some (key, r) =>
          match skip_ws r with
          | String c1 r1 =>
              if Ascii.eqb c1 ":" then
                match scan_once n' (skip_ws r1) with
                | Ok (value, r2) =>
                    match skip_ws r2 with
                    | String c2 r3 =>
                        if Ascii.eqb c2 "}"
                        then Ok (JDict (dict (rev ((key, value) :: pairs))),
                                 r3)
                        else if Ascii.eqb c2 "," then
                          match skip_ws r3 with
                          | String c' r4 =>
                              if Ascii.eqb c' (ascii_of_nat 34)
                              then JSONObject_loop n' r4
                                     ((key, value) :: pairs)
                              else Error
                          | EmptyString => Error
                          end
                        else Error
                    | EmptyString => Error
                    end
                | Error => Error
                | Fuel => Fuel
                end
              else Error
          | EmptyString => Error
          end
      end
  end.

(** Twice the length of the text and one more step are enough for the
    scanner (lemma [scan_once_fuel]). *)
Definition fuel_for (s : string) : nat := S (2 * String.length s).

(** [JSONDecoder.decode]: white space, one value, white space, and the end
    of the text; anything else is the error "Extra data". *)
Definition decode (n : nat) (s : string) : result JSON :=
  match scan_once n (skip_ws s) with
  | Ok (obj, r) =>
      match skip_ws r with
      | EmptyString => Ok obj
      | _ => Error
      end
  | Error => Error
  | Fuel => Fuel
  end.

(** [json.loads(s)]; [None] stands for [json.JSONDecodeError]. *)
Definition json_loads (s : string) : option JSON :=
  match decode (fuel_for s) s with
  | Ok obj => Some obj
  | _ => None
  end.

(** ** The session and the dashboard ([app.py]) *)

(** The three analyses of the dashboard. *)
Inductive TaskKind : Type :=
  | FinancialAnalysis
  | SwotAnalysis
  | RiskSimulation.

(** What [st.session_state.analysis_data] holds: the two strings stored by
    the "Run Full Analysis" handler and the decoded answers of the model. *)
Inductive sessval : Type :=
  | SStr (s : string)
  | SJson (j : JSON).

(** The calls to the user interface that report an outcome. *)
Inductive ui : Type :=
  | st_error (msg : string)
  | st_success (msg : string)
  | st_code (body : string).

(** The key of [analysis_data] an analysis is stored under. *)
Definition session_key (kind : TaskKind) : string :=
  match kind with
  | FinancialAnalysis => "financials"
  | SwotAnalysis => "swot"
  | RiskSimulation => "simulation"
  end.

Definition decode_error (kind : TaskKind) : string :=
  match kind with
  | FinancialAnalysis => "Could not decode financial analysis from AI."
  | SwotAnalysis => "Could not decode SWOT analysis from AI."
  | RiskSimulation => "Could not decode simulation from AI."
  end.

Definition fence : string := "```".
Definition fence_json : string := "```json".

(** [json_str.strip().replace("```json", "").replace("```", "")] *)
Definition unfence (json_str : string) : string :=
  replace fence "" (replace fence_json "" (strip json_str)).

(** The [try] block of a tab: the decoded answer is stored under the key of
    the analysis; on [json.JSONDecodeError] nothing is stored, the error is
    reported and the raw answer is shown. *)
Definition store_answer (kind : TaskKind) (json_str : string)
  (data : gmap string sessval) : gmap string sessval * list ui :=
  match json_loads (unfence json_str) with
  | Some obj => (<[session_key kind := SJson obj]> data, [])
  | None => (data, [st_error (decode_error kind); st_code json_str])
  end.

(** [v.get(key, default)]; [None] stands for the [AttributeError] raised
    when [v] is not a dictionary. *)
Fixpoint dict_get (k : ustr) (d : list (ustr * JSON)) : option JSON :=
  match d with
  | [] => None
  | (k', v) :: d' => if ustr_eqb k k' then Some v else dict_get k d'
  end.

Definition get (v : JSON) (key : string) (default : JSON) : option JSON :=
  match v with
  | JDict d =>
      match dict_get (codes key) d with
      | Some x => Some x
      | None => Some default
      end
  | _ => None
  end.

(** [data.get(section, {}).get(field, default)] *)
Definition field (data : JSON) (section name : string) (default : JSON)
  : option JSON :=
  match get data section (JDict []) with
  | Some sec => get sec name default
  | None => None
  end.

(** The three metrics of the financial tab: revenue with its delta, net
    income, net margin. *)
Definition financial_metrics (data : JSON) : option (list JSON) :=
  match field data "revenue_analysis" "current_year_revenue"
          (JStr (codes "N/A")),
        field data "revenue_analysis" "growth_rate" (JStr []),
        field data "profitability" "net_income" (JStr (codes "N/A")),
        field data "profitability" "net_margin" (JStr (codes "N/A")) with
  | Some revenue, Some delta, Some income, Some margin =>
      Some [revenue; delta; income; margin]
  | _, _, _, _ => None
  end.

(** [swot.get(quadrant, [])] *)
Definition swot_items (swot : JSON) (quadrant : string) : option JSON :=
  get swot quadrant (JList []).

(** [sim.get('relevant_risk', 'N/A')] and [sim.get(case, {})] *)
Definition relevant_risk (sim : JSON) : option JSON :=
  get sim "relevant_risk" (JStr (codes "N/A")).

Definition scenario (sim : JSON) (case : string) : option JSON :=
  get sim case (JDict []).

Section App.
Variable get_filings : Query -> M Response.
Variable generate_content : string -> string.
(** [str.upper], used for the texts shown to the user only. *)
Variable upper : string -> string.

(** [st.session_state.analysis_data = {}] *)
Definition reset (data : gmap string sessval) : gmap string sessval := ∅.

(** The handler of the "Run Full Analysis" button. *)
Definition run_full_analysis (primary_ticker : string)
  (data : gmap string sessval) : gmap string sessval * list ui :=
  let data := reset data in
  let '(filing_url, full_text_url) :=
    get_10k_report_text get_filings primary_ticker in
  if contains "Could not fetch" filing_url
  then (data, [st_error filing_url])
  else
    (<["company_name" := SStr primary_ticker]>
       (<["filing_url" := SStr filing_url]> data),
     [st_success ("Report found for " +:+ upper primary_ticker +:+ "!")]).

(** ['filing_url' in st.session_state.analysis_data], the condition of
    the dashboard. *)
Definition dashboard_shown (data : gmap string sessval) : bool :=
  bool_decide (is_Some (data !! "filing_url")).

(** The answer of the model for an analysis of the dashboard: the
    document is always given by its link. *)
Definition answer (kind : TaskKind) (url company market_shock : string)
  : string :=
  match kind with
  | FinancialAnalysis => conduct_financial_analysis generate_content url true
  | SwotAnalysis => conduct_swot_analysis generate_content url company true
  | RiskSimulation =>
      conduct_risk_simulation generate_content url company market_shock true
  end.

(** The first two tabs ask the model only when the session has no answer
    yet; the third asks at every click on "Simulate Impact". *)
Definition load_tab (kind : TaskKind) (url company market_shock : string)
  (data : gmap string sessval) : gmap string sessval * list ui :=
  match kind, data !! session_key kind with
  | RiskSimulation, _ | _, None =>
      store_answer kind (answer kind url company market_shock) data
  | _, Some _ => (data, [])
  end.
End App.

(** The words of the specification for the keys an answer is required to
    have; the program has no such list. *)
Definition spec_required_keys (kind : TaskKind) : list string :=
  match kind with
  | FinancialAnalysis => ["revenue_analysis"; "profitability"]
  | SwotAnalysis => ["strengths"; "weaknesses"; "opportunities"; "threats"]
  | RiskSimulation =>
      ["relevant_risk"; "best_case"; "likely_case"; "worst_case"]
  end.

Definition has_key (v : JSON) (key : string) : bool :=
  match v with
  | JDict d => match dict_get (codes key) d with Some _ => true | None => false end
  | _ => false
  end.

Definition spec_schema_ok (kind : TaskKind) (v : JSON) : bool :=
  forallb (has_key v) (spec_required_keys kind).

(** The characters of a decimal number after its sign. *)
Definition decimal_char (c : ascii) : bool :=
  is_digit c || has_char c ".eE+-".

(** The characters of a text that [float] converts. *)
Definition float_char (c : ascii) : bool :=
  decimal_char c || Ascii.eqb c "_" || is_float_space c
  || has_char (lower_char c) "infinityan".


(** The reading of the specification for a text with both suffix letters:
    the number that is left when both letters are removed, in billions. *)
Definition spec_billions_only (s : string) : option F64 :=
  match float_of_str (replace "m" "" (replace "b" "" (clean s))) with
  | Some f => Some (F64_mul_int f 1000000000)
  | None => None
  end.

(** The answer [s] between the two lines of a fence. *)
Definition fenced (s : string) : string :=
  fence_json +:+ nl +:+ s +:+ nl +:+ fence.

(** A result of the scanner with a line feed after what is left. *)
Definition after_nl (x : result (JSON * string)) : result (JSON * string) :=
  match x with
  | Ok (v, r) => Ok (v, r +:+ nl)
  | Error => Error
  | Fuel => Fuel
  end.

(** A decoded answer that is a dictionary. *)
Definition is_record (v : JSON) : bool :=
  match v with
  | JDict _ => true
  | _ => false
  end.

(** The example of the financial prompt, as the model would answer it. *)
Definition financial_example : string :=
  "{" +:+ q "revenue_analysis" +:+ ": { " +:+ q "current_year_revenue"
  +:+ ": " +:+ q "100B" +:+ ", " +:+ q "previous_year_revenue" +:+ ": "
  +:+ q "90B" +:+ ", " +:+ q "growth_rate" +:+ ": " +:+ q "11.1%" +:+ " },"
  +:+ q "profitability" +:+ ": { " +:+ q "net_income" +:+ ": " +:+ q "20B"
  +:+ ", " +:+ q "net_margin" +:+ ": " +:+ q "20%" +:+ " }}".

(** ** Notions used by the properties *)

(** Every character of [s] is in the class [p]. *)
Fixpoint all_chars (p : ascii -> bool) (s : string) : bool :=
  match s with
  | EmptyString => true
  | String c r => p c && all_chars p r
  end.

(** The number a run of decimal digits denotes. *)
Definition digits_value (d : string) : Z := fst (fst (digits d 0 0)).

(** The characters that can occur in a text the normalizer does not send
    to its fallback: those of a number for [float], the two suffix
    letters and the three signs it removes. *)
Definition normalizer_char (c : ascii) : bool :=
  float_char c || has_char c "bm$,%".

(** A session as the program makes it: strings are held under the two keys
    of the handler only, decoded answers under the keys of the analyses
    only, and the link of the filing is there exactly when the name of the
    company is. *)
Definition session_ok (data : gmap string sessval) : Prop :=
  (forall k v, data !! k = Some v ->
     match v with
     | SStr _ => k = "filing_url" \/ k = "company_name"
     | SJson _ => exists kind, k = session_key kind
     end)
  /\ (is_Some (data !! "filing_url") <-> is_Some (data !! "company_name")).

(** [company = data['company_name']] and [url = data['filing_url']], the
    two strings the dashboard starts from; [None] stands for the
    [KeyError] of an absent key and for a value that is not a string. *)
Definition dashboard_inputs (data : gmap string sessval)
  : option (string * string) :=
  match data !! "company_name", data !! "filing_url" with
  | Some (SStr company), Some (SStr url) => Some (company, url)
  | _, _ => None
  end.

(** One tab of the dashboard on a session: nothing is shown without the
    link of a filing; otherwise the tab is loaded from the two strings of
    the session. *)
Definition dashboard_tab (generate_content : string -> string)
  (kind : TaskKind) (market_shock : string) (data : gmap string sessval)
  : option (gmap string sessval * list ui) :=
  if dashboard_shown data then
    match dashboard_inputs data with
    | Some (company, url) =>
        Some (load_tab generate_content kind url company market_shock data)
    | None => None
    end
  else Some (data, []).

(** The characters a JSON value can start with. *)
Definition value_start (c : ascii) : bool :=
  is_digit c || has_char c (dq +:+ "{[ntfNI-").

(** The section [name] of a decoded answer can be read with [get]: the
    answer is a dictionary, and the section is a dictionary or absent. *)
Definition section_ok (data : JSON) (name : string) : bool :=
  match data with
  | JDict d =>
      match dict_get (codes name) d with
      | Some v => is_record v
      | None => true
      end
  | _ => false
  end.

(** An answer between the two lines of a fence without tag, and of a fence
    whose tag is in capitals. *)
Definition fenced_plain (s : string) : string :=
  fence +:+ nl +:+ s +:+ nl +:+ fence.

Definition fenced_capitals (s : string) : string :=
  "```JSON" +:+ nl +:+ s +:+ nl +:+ fence.

(** What follows the first opening brace of a text, with the brace. *)
Fixpoint from_brace (s : string) : string :=
  match s with
  | EmptyString => EmptyString
  | String c r => if Ascii.eqb c "{" then s else from_brace r
  end.

(** An answer between two fences on the same line. *)
Definition fenced_tight (s : string) : string :=
  fence_json +:+ s +:+ fence.

(** The number of grave accents a text starts with. *)
Fixpoint leading_graves (s : string) : nat :=
  match s with
  | String c r => if Ascii.eqb c "`" then S (leading_graves r) else O
  | EmptyString => O
  end.

(** ** The SWOT tab and the simulation tab *)

(** The items a [for] loop goes through: those of a list, the characters
    of a string, the keys of a dictionary; [None] stands for the
    [TypeError] of a value that is not iterable. *)
Definition iterate (v : JSON) : option (list JSON) :=
  match v with
  | JList l => Some l
  | JStr s => Some (map (fun c => JStr [c]) s)
  | JDict d => Some (map (fun kv => JStr (fst kv)) d)
  | _ => None
  end.

Definition iterable (v : JSON) : bool :=
  match v with
  | JList _ | JStr _ | JDict _ => true
  | _ => false
  end.

(** [for item in swot.get(quadrant, [])]: the items of one quadrant. *)
Definition quadrant (swot : JSON) (name : string) : option (list JSON) :=
  match swot_items swot name with
  | Some v => iterate v
  | None => None
  end.

(** The four lists of the SWOT tab, in the order of the page; [None]
    stands for an exception. *)
Definition swot_view (swot : JSON) : option (list (list JSON)) :=
  match quadrant swot "strengths", quadrant swot "weaknesses",
        quadrant swot "opportunities", quadrant swot "threats" with
  | Some s, Some w, Some o, Some t => Some [s; w; o; t]
  | _, _, _, _ => None
  end.

(** The quadrant [name] of a decoded answer can be listed: the answer is a
    dictionary, and the quadrant is iterable or absent. *)
Definition quadrant_ok (swot : JSON) (name : string) : bool :=
  match swot with
  | JDict d =>
      match dict_get (codes name) d with
      | Some v => iterable v
      | None => true
      end
  | _ => false
  end.

(** The three lines of a scenario: [bc.get('scenario')],
    [bc.get('impact')] and [bc.get('mitigation')] for
    [bc = sim.get(case, {})]; an absent key gives [None], here [JNull]. *)
Definition scenario_lines (sim : JSON) (case : string)
  : option (list JSON) :=
  match scenario sim case with
  | Some bc =>
      match get bc "scenario" JNull, get bc "impact" JNull,
            get bc "mitigation" JNull with
      | Some outcome, Some impact, Some mitigation =>
          Some [outcome; impact; mitigation]
      | _, _, _ => None
      end
  | None => None
  end.

(** The simulation tab: the risk, then the best, the likely and the worst
    case; [None] stands for an exception. *)
Definition simulation_view (sim : JSON) : option (JSON * list (list JSON)) :=
  match relevant_risk sim, scenario_lines sim "best_case",
        scenario_lines sim "likely_case",
        scenario_lines sim "worst_case" with
  | Some risk, Some bc, Some lc, Some wc => Some (risk, [bc; lc; wc])
  | _, _, _, _ => None
  end.

(** * Properties *)

(** ** The builtins on known values *)

(** [float] rounds to the nearest binary64 number, ties to even: 0.1 is
    0x1.999999999999ap-4, 2^53 + 1 is rounded to 2^53, the smallest
    subnormal number is 2^-1074, and what is above the largest number
    overflows to infinity. *)
Example float_values :
  float_of_str "0.1" = Some (FFin false 7205759403792794 (-56))
  /\ float_of_str "9007199254740993" = Some (FFin false 4503599627370496 1)
  /\ float_of_str "5e-324" = Some (FFin false 1 (-1074))
  /\ float_of_str "2e-324" = Some (FZero false)
  /\ float_of_str "1.7976931348623157e308"
     = Some (FFin false 9007199254740991 971)
  /\ float_of_str "1e400" = Some (FInf false)
  /\ float_of_str " -1_000.5e-1 " = Some (FFin true 7040392854975283 (-46))
  /\ float_of_str "-inf" = Some (FInf true)
  /\ float_of_str "NaN" = Some FNaN.
Proof. repeat split; vm_compute; reflexivity. Qed.

(** What [float] refuses. *)
Example float_errors :
  map float_of_str ["abc"; ""; "."; "1e"; "1_"; "_1"; "1__0"; "0x10"; "1 2";
                    "5m"; "+-1"]
  = map (fun _ => None) (seq 0 11).
Proof. vm_compute. reflexivity. Qed.

Example strip_values :
  strip ("  " +:+ nl +:+ "a b" +:+ nl) = "a b"
  /\ replace "aa" "b" "aaaaa" = "bba"
  /\ replace "" "-" "abc" = "-a-b-c-"
  /\ lower "$100B" = "$100b"
  /\ contains "" "" = true
  /\ take 2 "abc" = "ab".
Proof. repeat split; vm_compute; reflexivity. Qed.

(** [json.loads]: white space around the value, a key given twice, the
    constants of the decoder, escapes and surrogate pairs. *)
Example json_values :
  json_loads " [ ] " = Some (JList [])
  /\ json_loads ("{" +:+ q "a" +:+ ":1," +:+ q "b" +:+ ":2," +:+ q "a"
                 +:+ ":3}")
     = Some (JDict [(codes "a", JInt 3); (codes "b", JInt 2)])
  /\ json_loads "[-0, -0.0, 1E2, NaN, -Infinity, true, null]"
     = Some (JList [JInt 0; JFloat (FZero true);
                    JFloat (FFin false 7036874417766400 (-46));
                    JFloat FNaN; JFloat (FInf true); JBool true; JNull])
  /\ json_loads (q "a\n\u00e9\ud83d\ude00\ud800")
     = Some (JStr [97; 10; 233; 128512; 55296]%N).
Proof. repeat split; vm_compute; reflexivity. Qed.

(** What [json.loads] refuses. *)
Example json_errors :
  map json_loads [""; "["; "[1,]"; "01"; "1."; "[1 2]"; "nul"; "-"; "{,}";
                  "{a:1}"; "[1]x"; "+1"; ".5"; q "\x"; q "\u12G4";
                  dq +:+ "a"; q nl]
  = map (fun _ => None) (seq 0 17).
Proof. vm_compute. reflexivity. Qed.

(** ** Characters of a string *)

Lemma app_nil_l (s : string) : "" +:+ s = s.
Proof. reflexivity. Qed.

Lemma app_cons (c : ascii) (a b : string) :
  String c a +:+ b = String c (a +:+ b).
Proof. reflexivity. Qed.

Lemma app_nil_r (s : string) : s +:+ "" = s.
Proof. induction s as [|c s IH]; [reflexivity|]. now rewrite app_cons, IH. Qed.

Lemma app_assoc (a b c : string) : (a +:+ b) +:+ c = a +:+ b +:+ c.
Proof.
  induction a as [|x a IH]; [reflexivity|]. now rewrite !app_cons, IH.
Qed.

Lemma length_app (a b : string) :
  String.length (a +:+ b) = (String.length a + String.length b)%nat.
Proof.
  induction a as [|x a IH]; [reflexivity|]. rewrite app_cons. cbn.
  now rewrite IH.
Qed.

Lemma prefix_char (c x : ascii) (r : string) :
  String.prefix (String c EmptyString) (String x r) = Ascii.eqb x c.
Proof.
  simpl. destruct (ascii_dec c x) as [->|Hne].
  - rewrite Ascii.eqb_refl. now destruct r.
  - destruct (Ascii.eqb_spec x c); congruence.
Qed.

Lemma contains_char (c : ascii) (s : string) :
  contains (String c EmptyString) s = has_char c s.
Proof.
  induction s as [|x r IH]; [reflexivity|].
  cbn [contains has_char]. now rewrite prefix_char, IH.
Qed.

Lemma replace_char (c : ascii) (s : string) :
  replace (String c EmptyString) "" s = remove_char c s.
Proof.
  unfold replace. induction s as [|x r IH]; [reflexivity|].
  cbn [replace_from remove_char]. rewrite prefix_char.
  destruct (Ascii.eqb x c); cbn; now rewrite IH.
Qed.

Lemma has_char_remove (c x : ascii) (s : string) :
  has_char c (remove_char x s) = has_char c s && negb (Ascii.eqb c x).
Proof.
  induction s as [|y r IH]; [reflexivity|]. cbn.
  destruct (Ascii.eqb_spec y x) as [->|Hyx]; cbn; rewrite IH.
  - destruct (Ascii.eqb_spec x c) as [->|Hxc]; cbn.
    + rewrite Ascii.eqb_refl. cbn. now rewrite andb_false_r.
    + reflexivity.
  - destruct (Ascii.eqb_spec y c) as [->|Hyc]; cbn; [|reflexivity].
    destruct (Ascii.eqb_spec c x); [congruence|reflexivity].
Qed.

Lemma has_char_lower (c : ascii) (s : string) :
  has_char c s = true -> has_char (lower_char c) (lower s) = true.
Proof.
  induction s as [|x r IH]; cbn; [discriminate|].
  destruct (Ascii.eqb_spec x c) as [->|Hne]; cbn.
  - now rewrite Ascii.eqb_refl.
  - intros H. rewrite IH by exact H. apply orb_true_r.
Qed.

(** ** The characters [float] accepts *)

Lemma has_char_lstrip (sp : ascii -> bool) (c : ascii) (s : string) :
  has_char c s = true -> sp c = true \/ has_char c (lstrip sp s) = true.
Proof.
  induction s as [|x r IH]; cbn; [discriminate|].
  destruct (sp x) eqn:Hx; [|now right].
  destruct (Ascii.eqb_spec x c) as [->|Hne]; cbn; [now left|exact IH].
Qed.

Lemma has_char_rstrip (sp : ascii -> bool) (c : ascii) (s : string) :
  has_char c s = true -> sp c = true \/ has_char c (rstrip sp s) = true.
Proof.
  induction s as [|x r IH]; cbn; [discriminate|].
  destruct (Ascii.eqb_spec x c) as [->|Hne]; cbn.
  - intros _. destruct (rstrip sp r); cbn.
    + destruct (sp c) eqn:Hc; [now left|right; cbn].
      now rewrite Ascii.eqb_refl.
    + right. now rewrite Ascii.eqb_refl.
  - intros H. destruct (IH H) as [Hs|Hr]; [now left|right].
    destruct (rstrip sp r); cbn in *; [discriminate|].
    rewrite Hr. apply orb_true_r.
Qed.

Lemma has_char_strip (sp : ascii -> bool) (c : ascii) (s : string) :
  has_char c s = true ->
  sp c = true \/ has_char c (strip_with sp s) = true.
Proof.
  intros H. destruct (has_char_lstrip sp _ _ H) as [Hs|Hl]; [now left|].
  now apply has_char_rstrip.
Qed.

Lemma has_char_split_sign (c : ascii) (s r : string) (neg : bool) :
  split_sign s = (neg, r) -> has_char c s = true ->
  has_char c "+-" = true \/ has_char c r = true.
Proof.
  unfold split_sign. destruct s as [|x t]; [discriminate|].
  destruct (Ascii.eqb_spec x "-") as [->|H1];
    [|destruct (Ascii.eqb_spec x "+") as [->|H2]];
    intros [= <- <-]; [| |now right]; cbn [has_char].
  - destruct (Ascii.eqb_spec "-" c) as [<-|]; [now left|now right].
  - destruct (Ascii.eqb_spec "+" c) as [<-|]; [now left|now right].
Qed.

Lemma has_char_digits (c : ascii) (s : string) :
  forall acc cnt v n r,
    digits s acc cnt = (v, n, r) -> has_char c s = true ->
    is_digit c = true \/ has_char c r = true.
Proof.
  induction s as [|x t IH]; cbn; [discriminate|]. intros acc cnt v n r.
  destruct (is_digit x) eqn:Hx.
  - intros Hd. destruct (Ascii.eqb_spec x c) as [->|Hne]; cbn; [now left|].
    eauto.
  - intros [= <- <- <-]. cbn. now right.
Qed.

Lemma lower_char_e (c : ascii) :
  Ascii.eqb (lower_char c) "e" = true -> has_char c "eE" = true.
Proof.
  destruct c as [[] [] [] [] [] [] [] []]; vm_compute; congruence.
Qed.

(** Inclusion between two sets of characters given by literals. *)
Ltac subchars :=
  let y := fresh "y" in
  let H := fresh "H" in
  intros y; cbn [has_char];
  repeat match goal with
         | |- context [Ascii.eqb ?a y] => destruct (Ascii.eqb a y)
         end;
  cbn; intros H; solve [reflexivity | discriminate H].

Lemma has_char_sub (c : ascii) (w t : string) :
  has_char c w = true ->
  (forall x, has_char x w = true -> has_char x t = true) ->
  has_char c t = true.
Proof. auto. Qed.

Lemma exponent_chars (s : string) (x : Z) (c : ascii) :
  exponent s = Some x -> has_char c s = true -> decimal_char c = true.
Proof.
  unfold exponent. destruct s as [|e r]; [discriminate|].
  destruct (Ascii.eqb (lower_char e) "e") eqn:He; [|discriminate].
  destruct (split_sign r) as [neg r1] eqn:Hs.
  destruct (digits r1 0 0) as [[v cnt] [|? ?]] eqn:Hd; [|discriminate].
  intros _. cbn [has_char]. unfold decimal_char.
  destruct (Ascii.eqb_spec e c) as [->|Hne]; cbn [orb].
  - intros _. apply lower_char_e in He.
    apply (has_char_sub _ _ ".eE+-") in He; [now rewrite He, orb_true_r|].
    subchars.
  - intros Hr. destruct (has_char_split_sign _ _ _ _ Hs Hr) as [Hp|Hr1].
    + apply (has_char_sub _ _ ".eE+-") in Hp; [now rewrite Hp, orb_true_r|].
      subchars.
    + destruct (has_char_digits _ _ _ _ _ _ _ Hd Hr1) as [->|Hn];
        [reflexivity|discriminate].
Qed.

Lemma point_digits_chars (c : ascii) (s : string) (v0 v n : Z) (r : string) :
  point_digits v0 s = (v, n, r) -> has_char c s = true ->
  decimal_char c = true \/ has_char c r = true.
Proof.
  unfold point_digits. destruct s as [|x t]; cbn; [discriminate|].
  destruct (Ascii.eqb_spec x ".") as [->|Hne].
  - intros Hd. destruct (Ascii.eqb_spec "." c) as [<-|Hc]; cbn; [now left|].
    intros Ht. destruct (has_char_digits _ _ _ _ _ _ _ Hd Ht) as [Hg|Hr];
      [left|now right].
    unfold decimal_char. now rewrite Hg.
  - intros [= <- <- <-]. cbn. now right.
Qed.

Lemma decimal_chars (neg : bool) (s : string) (f : F64) (c : ascii) :
  decimal neg s = Some f -> has_char c s = true -> decimal_char c = true.
Proof.
  unfold decimal.
  destruct (digits s 0 0) as [[v1 c1] r1] eqn:Hd.
  destruct (point_digits v1 r1) as [[v2 c2] r2] eqn:Hp.
  destruct (0 <? c1 + c2); [|discriminate].
  destruct (exponent r2) as [x|] eqn:He; [|discriminate].
  intros _ Hs.
  destruct (has_char_digits _ _ _ _ _ _ _ Hd Hs) as [Hg|Hr1].
  { unfold decimal_char. now rewrite Hg. }
  destruct (point_digits_chars _ _ _ _ _ _ Hp Hr1) as [Hc|Hr2]; [exact Hc|].
  eapply exponent_chars; eauto.
Qed.

Lemma float_of_str_chars (s : string) (f : F64) (c : ascii) :
  float_of_str s = Some f -> has_char c s = true -> float_char c = true.
Proof.
  unfold float_of_str. destruct (underscores_ok zero s); [|discriminate].
  destruct (split_sign (strip_with is_float_space (remove_char "_" s)))
    as [neg r] eqn:Hs.
  intros Hf Hc. unfold float_char.
  destruct (Ascii.eqb_spec c "_") as [->|Hu]; [now rewrite orb_true_r|].
  assert (H1 : has_char c (remove_char "_" s) = true).
  { rewrite has_char_remove, Hc.
    destruct (Ascii.eqb_spec c "_"); [congruence|reflexivity]. }
  destruct (has_char_strip is_float_space _ _ H1) as [Hsp|H2].
  { rewrite Hsp. now rewrite orb_true_r. }
  destruct (has_char_split_sign _ _ _ _ Hs H2) as [Hpm|Hr].
  { assert (decimal_char c = true) as ->; [|reflexivity].
    unfold decimal_char.
    apply (has_char_sub _ _ ".eE+-") in Hpm; [now rewrite Hpm, orb_true_r|].
    subchars. }
  pose proof (has_char_lower _ _ Hr) as Hl.
  destruct (String.eqb_spec (lower r) "inf") as [E|_].
  { rewrite E in Hl.
    apply (has_char_sub _ _ "infinityan") in Hl; [now rewrite Hl, orb_true_r|].
    subchars. }
  destruct (String.eqb_spec (lower r) "infinity") as [E|_].
  { rewrite E in Hl.
    apply (has_char_sub _ _ "infinityan") in Hl; [now rewrite Hl, orb_true_r|].
    subchars. }
  cbn [orb] in Hf.
  destruct (String.eqb_spec (lower r) "nan") as [E|_].
  { rewrite E in Hl.
    apply (has_char_sub _ _ "infinityan") in Hl; [now rewrite Hl, orb_true_r|].
    subchars. }
  erewrite decimal_chars; eauto.
Qed.

(** A text with the letter [m] in it is not a number for [float]. *)
Lemma float_of_str_m (s : string) :
  has_char "m" s = true -> float_of_str s = None.
Proof.
  intros Hm. destruct (float_of_str s) as [f|] eqn:Hf; [|reflexivity].
  pose proof (float_of_str_chars _ _ _ Hf Hm) as H. vm_compute in H.
  discriminate.
Qed.

Lemma has_char_clean (c : ascii) (s : string) :
  has_char c (clean s)
  = has_char c (lower s) && negb (Ascii.eqb c "$") && negb (Ascii.eqb c ",")
    && negb (Ascii.eqb c "%").
Proof.
  unfold clean. now rewrite !replace_char, !has_char_remove.
Qed.

(** ** The Numeric Normalizer *)

(** C4: the normalizer maps "$100B" to 100000000000, "15%" to 15, "20.5M"
    to 20500000 and "abc" to 0, and it returns a number it is handed (42,
    any [int], any [float]) unchanged. *)
Theorem normalize_examples :
  as_integer (parse_financial_value (VStr "$100B")) = Some 100000000000
  /\ as_integer (parse_financial_value (VStr "15%")) = Some 15
  /\ as_integer (parse_financial_value (VStr "20.5M")) = Some 20500000
  /\ parse_financial_value (VStr "abc") = VInt 0
  /\ parse_financial_value (VInt 42) = VInt 42
  /\ (forall z, parse_financial_value (VInt z) = VInt z)
  /\ (forall f, parse_financial_value (VFloat f) = VFloat f).
Proof.
  repeat split; try (vm_compute; reflexivity); intros; reflexivity.
Qed.

(** The three texts of C4 are converted without rounding: the results are
    these binary64 numbers. *)
Lemma normalize_floats_exact :
  parse_financial_value (VStr "$100B")
  = VFloat (FFin false 6553600000000000 (-16))
  /\ parse_financial_value (VStr "15%")
     = VFloat (FFin false 8444249301319680 (-49))
  /\ parse_financial_value (VStr "20.5M")
     = VFloat (FFin false 5502926848000000 (-28)).
Proof. repeat split; vm_compute; reflexivity. Qed.

(** The suffix test looks for [b] first. *)
Lemma suffix_b_first (s : string) :
  contains "b" s = true -> suffix s = (1000000000, replace "b" "" s).
Proof. unfold suffix. now intros ->. Qed.

(** C5, as the program has it: [b] is looked for before [m], and a text
    with both letters gets the multiplier of billions and loses its [b]
    only; the [m] that is left makes [float] fail, so the result is the
    fallback 0 and not a number of billions. *)
Theorem suffix_both_letters (s : string) :
  contains "b" (lower s) = true ->
  contains "m" (lower s) = true ->
  suffix (clean s) = (1000000000, replace "b" "" (clean s))
  /\ contains "m" (replace "b" "" (clean s)) = true
  /\ float_of_str (replace "b" "" (clean s)) = None
  /\ parse_financial_value (VStr s) = VInt 0.
Proof.
  rewrite !contains_char. intros Hb Hm.
  assert (Hb' : contains "b" (clean s) = true).
  { now rewrite contains_char, has_char_clean, Hb. }
  assert (Hm' : has_char "m" (replace "b" "" (clean s)) = true).
  { now rewrite replace_char, has_char_remove, has_char_clean, Hm. }
  pose proof (suffix_b_first _ Hb') as Hs.
  pose proof (float_of_str_m _ Hm') as Hf.
  repeat split; auto.
  unfold parse_financial_value. cbn [is_number]. now rewrite Hs, Hf.
Qed.

Lemma suffix_both_letters_witness :
  suffix (clean "5BM") = (1000000000, replace "b" "" (clean "5BM"))
  /\ contains "m" (replace "b" "" (clean "5BM")) = true
  /\ float_of_str (replace "b" "" (clean "5BM")) = None
  /\ parse_financial_value (VStr "5BM") = VInt 0.
Proof. apply (suffix_both_letters "5BM"); reflexivity. Defined.

(** C5 as stated fails on "5bm": the number that is left without the two
    letters is 5, and 5 billions is not what the program returns. *)
Lemma suffix_both_letters_counterexample :
  contains "b" (lower "5bm") = true
  /\ contains "m" (lower "5bm") = true
  /\ match spec_billions_only "5bm" with
     | Some f => F64_to_Z f
     | None => None
     end = Some 5000000000
  /\ as_integer (parse_financial_value (VStr "5bm")) = Some 0.
Proof. repeat split; vm_compute; reflexivity. Qed.

(** ** The FilingLocator *)

(** The test of the handler finds every message of the [except] clause. *)
Lemma could_not_fetch_found (detail : string) :
  contains "Could not fetch" (COULD_NOT_FETCH +:+ detail) = true.
Proof. reflexivity. Qed.




(** C7, as the program has it: when the first filing has its detail link
    but no list of document files, or an empty one, reading the document
    link raises inside the [try] block; the locator does not return the
    detail link, it answers with the message of the [except] clause and no
    document link, which the handler takes for a failure. *)
Theorem locate_without_document_link (get_filings : Query -> M Response)
  (ticker : string) (r : Response) (f : Filing) (fs : list Filing)
  (url : string) :
  get_filings (make_query ticker) = ret r ->
  filings r = Some (f :: fs) ->
  linkToFilingDetails f = Some url ->
  documentFormatFiles f = None \/ documentFormatFiles f = Some [] ->
  get_10k_report_text get_filings ticker
  = (COULD_NOT_FETCH
     +:+ exn_str (match documentFormatFiles f with
                  | None => KeyError "documentFormatFiles"
                  | Some _ => IndexError
                  end), None)
  /\ contains "Could not fetch"
       (fst (get_10k_report_text get_filings ticker)) = true.
Proof.
  intros Hq Hf Hl Hd.
  assert (E : get_10k_report_text get_filings ticker
              = (COULD_NOT_FETCH
                 +:+ exn_str (match documentFormatFiles f with
                              | None => KeyError "documentFormatFiles"
                              | Some _ => IndexError
                              end), None)).
  { unfold get_10k_report_text, locate_body. rewrite Hq. cbn.
    rewrite Hf. cbn. rewrite Hl. cbn. now destruct Hd as [-> | ->]. }
  split; [exact E|]. rewrite E. apply could_not_fetch_found.
Qed.

Lemma locate_without_document_link_witness :
  get_10k_report_text
    (fun _ => ret {| filings :=
                       Some [ {| linkToFilingDetails := Some "https://sec";
                                 documentFormatFiles := Some [] |} ] |})
    "MSFT"
  = (COULD_NOT_FETCH +:+ "list index out of range", None)
  /\ contains "Could not fetch"
       (fst (get_10k_report_text
               (fun _ => ret {| filings :=
                       Some [ {| linkToFilingDetails := Some "https://sec";
                                 documentFormatFiles := Some [] |} ] |})
               "MSFT")) = true.
Proof.
  apply (locate_without_document_link _ "MSFT"
           {| filings := Some [ {| linkToFilingDetails := Some "https://sec";
                                   documentFormatFiles := Some [] |} ] |}
           {| linkToFilingDetails := Some "https://sec";
              documentFormatFiles := Some [] |} [] "https://sec");
    try reflexivity.
  right. reflexivity.
Defined.

(** C7 as stated fails: a filing with a detail link and an empty list of
    document files does not give the reference made of the detail link and
    an absent document link; a filing without the list does not either. *)
Lemma locate_without_document_link_counterexample :
  get_10k_report_text
    (fun _ => ret {| filings :=
                       Some [ {| linkToFilingDetails := Some "https://sec";
                                 documentFormatFiles := Some [] |} ] |})
    "MSFT"
  <> ("https://sec", None)
  /\ get_10k_report_text
       (fun _ => ret {| filings :=
                          Some [ {| linkToFilingDetails := Some "https://sec";
                                    documentFormatFiles := None |} ] |})
       "MSFT"
     <> ("https://sec", None).
Proof. split; vm_compute; discriminate. Qed.

(** ** The session *)

(** C8: the handler of "Run Full Analysis" empties the session before it
    stores anything.  After a record was put under any key, the reset
    leaves no key at all; when the handler is done, no analysis is left
    under the key of any task, and the session is empty or holds the two
    strings of the new run only. *)
Theorem reset_clears_session (get_filings : Query -> M Response)
  (upper : string -> string) (ticker : string)
  (data : gmap string sessval) (k : string) (v : sessval) :
  <[k := v]> data !! k = Some v
  /\ (forall key, reset (<[k := v]> data) !! key = None)
  /\ (forall kind,
        fst (run_full_analysis get_filings upper ticker (<[k := v]> data))
        !! session_key kind = None)
  /\ (fst (run_full_analysis get_filings upper ticker (<[k := v]> data)) = ∅
      \/ exists link,
           fst (run_full_analysis get_filings upper ticker (<[k := v]> data))
           = <["company_name" := SStr ticker]>
               (<["filing_url" := SStr link]> ∅)).
Proof.
  split; [apply lookup_insert_eq|]. split; [intros key; apply lookup_empty|].
  unfold run_full_analysis, reset.
  destruct (get_10k_report_text get_filings ticker) as [filing_url full].
  destruct (contains "Could not fetch" filing_url); cbn [fst]; split.
  - intros kind. apply lookup_empty.
  - now left.
  - intros []; cbn; rewrite !lookup_insert_ne by discriminate;
      apply lookup_empty.
  - right. now exists filing_url.
Qed.

(** The first two tabs do not ask the model again when the session has an
    answer. *)
Lemma load_tab_cached (generate_content : string -> string)
  (kind : TaskKind) (url company market_shock : string)
  (data : gmap string sessval) (v : sessval) :
  kind <> RiskSimulation ->
  data !! session_key kind = Some v ->
  load_tab generate_content kind url company market_shock data = (data, []).
Proof.
  intros Hk Hv. unfold load_tab.
  destruct kind; [| |congruence]; cbn [session_key] in *; now rewrite Hv.
Qed.

(** C10: with no filing for the ticker, the locator answers with its
    not-found message; the test of the handler does not find "Could not
    fetch" in it, so the message is stored as the link of the filing, the
    ticker as the name of the company, success is reported, and the
    dashboard is shown. *)
Theorem not_found_stored_as_filing (get_filings : Query -> M Response)
  (upper : string -> string) (ticker : string)
  (data : gmap string sessval) (r : Response) :
  get_filings (make_query ticker) = ret r ->
  filings r = Some [] ->
  contains "Could not fetch" NO_FILINGS = false
  /\ run_full_analysis get_filings upper ticker data
     = (<["company_name" := SStr ticker]>
          (<["filing_url" := SStr NO_FILINGS]> ∅),
        [st_success ("Report found for " +:+ upper ticker +:+ "!")])
  /\ fst (run_full_analysis get_filings upper ticker data) !! "filing_url"
     = Some (SStr NO_FILINGS)
  /\ dashboard_shown
       (fst (run_full_analysis get_filings upper ticker data)) = true.
Proof.
  intros Hq Hf.
  assert (E : run_full_analysis get_filings upper ticker data
              = (<["company_name" := SStr ticker]>
                   (<["filing_url" := SStr NO_FILINGS]> ∅),
                 [st_success ("Report found for " +:+ upper ticker +:+ "!")])).
  { unfold run_full_analysis.
    unfold get_10k_report_text, locate_body. rewrite Hq. cbn.
    now rewrite Hf. }
  split; [reflexivity|]. split; [exact E|]. rewrite E. cbn [fst].
  assert (L : (<["company_name" := SStr ticker]>
                 (<["filing_url" := SStr NO_FILINGS]> ∅) : gmap string sessval)
              !! "filing_url" = Some (SStr NO_FILINGS)).
  { rewrite lookup_insert_ne by discriminate. apply lookup_insert_eq. }
  split; [exact L|]. unfold dashboard_shown. apply bool_decide_eq_true.
  rewrite L. eauto.
Qed.

Lemma not_found_stored_as_filing_witness :
  run_full_analysis (fun _ => ret {| filings := Some [] |}) (fun s => s)
    "msft" ∅
  = (<["company_name" := SStr "msft"]>
       (<["filing_url" := SStr NO_FILINGS]> ∅),
     [st_success "Report found for msft!"]).
Proof.
  apply (not_found_stored_as_filing (fun _ => ret {| filings := Some [] |})
           (fun s => s) "msft" ∅ {| filings := Some [] |});
    reflexivity.
Defined.

(** ** The prompt builders *)


Lemma length_take (n : nat) (s : string) :
  String.length (take n s) = Nat.min n (String.length s).
Proof.
  revert s. induction n as [|n IH]; intros [|c r]; cbn; try reflexivity.
  now rewrite IH.
Qed.

Lemma take_app (a b : string) : take (String.length a) (a +:+ b) = a.
Proof.
  induction a as [|c a IH]; [now destruct b|].
  rewrite app_cons. cbn. now rewrite IH.
Qed.

Lemma take_app_take (n : nat) (a b : string) :
  (n <= String.length a)%nat -> take n (a +:+ b) = take n a.
Proof.
  revert a. induction n as [|n IH]; intros [|c a] H; cbn in H;
    try reflexivity; [lia|].
  rewrite app_cons. cbn. rewrite IH by lia. reflexivity.
Qed.

(** Whatever follows the first [TEXT_LIMIT] characters of an inline
    document does not reach the prompt. *)
Lemma inline_text_tail_dropped (doc extra company shock : string) :
  (TEXT_LIMIT <= String.length doc)%nat ->
  financial_prompt (doc +:+ extra) false = financial_prompt doc false
  /\ swot_prompt (doc +:+ extra) company false
     = swot_prompt doc company false
  /\ risk_prompt (doc +:+ extra) company shock false
     = risk_prompt doc company shock false.
Proof.
  intros H.
  unfold financial_prompt, swot_prompt, risk_prompt, financial_input,
    company_input.
  now rewrite (take_app_take _ _ _ H).
Qed.


(** ** Prefixes and replacement *)

Ltac norm_app := rewrite ?app_cons, ?app_nil_l.

Lemma prefix_cons (a b : ascii) (s1 s2 : string) :
  String.prefix (String a s1) (String b s2)
  = if Ascii.eqb a b then String.prefix s1 s2 else false.
Proof.
  cbn. destruct (ascii_dec a b) as [->|Hne].
  - now rewrite Ascii.eqb_refl.
  - destruct (Ascii.eqb_spec a b); [congruence|reflexivity].
Qed.

Lemma prefix_nil_r (p : string) :
  String.prefix p "" = match p with EmptyString => true | _ => false end.
Proof. now destruct p. Qed.

Lemma prefix_length (p s : string) :
  String.prefix p s = true -> (String.length p <= String.length s)%nat.
Proof.
  revert s. induction p as [|a p IH]; intros [|b s]; cbn [String.length];
    try lia; [discriminate|].
  rewrite prefix_cons. destruct (Ascii.eqb a b); [|discriminate].
  intros H%IH. lia.
Qed.

(** A pattern without the character [c] does not see what follows [c]. *)
Lemma prefix_sep (c : ascii) (p a b : string) :
  has_char c p = false ->
  String.prefix p (a +:+ String c b) = String.prefix p a.
Proof.
  revert a. induction p as [|o p IH]; intros a Hc.
  - now destruct a.
  - cbn [has_char] in Hc. apply orb_false_iff in Hc as [Hoc Hp].
    destruct a as [|x a]; norm_app; rewrite prefix_cons.
    + now rewrite Hoc.
    + rewrite prefix_cons, IH by exact Hp. reflexivity.
Qed.

Lemma replace_from_sep (c : ascii) (old new b : string) :
  old <> "" -> has_char c old = false ->
  forall a k, (k <= String.length a)%nat ->
    replace_from k old new (a +:+ String c b)
    = replace_from k old new a +:+ String c (replace_from O old new b).
Proof.
  intros Hold Hc. induction a as [|x a IH]; intros k Hk.
  - cbn in Hk. assert (k = O) as -> by lia. norm_app.
    cbn [replace_from].
    replace (String c b) with ("" +:+ String c b) at 1 by reflexivity.
    rewrite prefix_sep by exact Hc. rewrite prefix_nil_r.
    destruct old; [congruence|reflexivity].
  - norm_app. cbn [String.length] in Hk. destruct k as [|k].
    + cbn [replace_from].
      replace (String x (a +:+ String c b))
        with (String x a +:+ String c b) by reflexivity.
      rewrite prefix_sep by exact Hc.
      destruct (String.prefix old (String x a)) eqn:Hp.
      * apply prefix_length in Hp. cbn [String.length] in Hp.
        rewrite IH by lia. now rewrite app_assoc.
      * rewrite IH by lia. reflexivity.
    + cbn [replace_from]. apply IH. lia.
Qed.

Lemma replace_sep (c : ascii) (old new a b : string) :
  old <> "" -> has_char c old = false ->
  replace old new (a +:+ String c b)
  = replace old new a +:+ String c (replace old new b).
Proof.
  intros Hold Hc. unfold replace. destruct old as [|o old]; [congruence|].
  apply replace_from_sep; [discriminate|exact Hc|lia].
Qed.

(** ** Stripping *)

Lemma lstrip_id (sp : ascii -> bool) (c : ascii) (s : string) :
  sp c = false -> lstrip sp (String c s) = String c s.
Proof. intros H. cbn. now rewrite H. Qed.

Lemma rstrip_id (sp : ascii -> bool) (c : ascii) (s : string) :
  sp c = false -> rstrip sp (s +:+ String c "") = s +:+ String c "".
Proof.
  intros H. induction s as [|x s IH]; norm_app.
  - cbn. now rewrite H.
  - cbn [rstrip]. rewrite IH. destruct s; reflexivity.
Qed.

Lemma strip_id (c d : ascii) (s : string) :
  is_space c = false -> is_space d = false ->
  strip (String c (s +:+ String d "")) = String c (s +:+ String d "").
Proof.
  intros Hc Hd. unfold strip, strip_with. rewrite lstrip_id by exact Hc.
  exact (rstrip_id is_space d (String c s) Hd).
Qed.


(** ** The scanner on a text followed by a line feed *)

Lemma length_drop (k : nat) (s : string) :
  String.length (drop k s) = (String.length s - k)%nat.
Proof.
  revert s. induction k as [|k IH]; intros [|c s]; cbn; try reflexivity.
  apply IH.
Qed.

Lemma drop_app (k : nat) (s t : string) :
  (k <= String.length s)%nat -> drop k (s +:+ t) = drop k s +:+ t.
Proof.
  revert s. induction k as [|k IH]; intros [|c s] H; cbn in H;
    try reflexivity; try lia.
  norm_app. cbn [drop]. apply IH. lia.
Qed.

Lemma skip_ws_nl (s : string) :
  skip_ws (s +:+ nl)
  = match skip_ws s with
    | EmptyString => EmptyString
    | t => t +:+ nl
    end.
Proof.
  induction s as [|c s IH]; [reflexivity|]. norm_app. cbn [skip_ws].
  destruct (is_ws c); [exact IH|reflexivity].
Qed.

Lemma length_skip_ws (s : string) :
  (String.length (skip_ws s) <= String.length s)%nat.
Proof.
  induction s as [|c s IH]; cbn; [lia|]. destruct (is_ws c); cbn; lia.
Qed.

Lemma digits_nl (s : string) (acc cnt : Z) :
  digits (s +:+ nl) acc cnt
  = let '(v, n, r) := digits s acc cnt in (v, n, r +:+ nl).
Proof.
  revert acc cnt. induction s as [|c s IH]; intros acc cnt; [reflexivity|].
  norm_app. cbn [digits]. destruct (is_digit c); [apply IH|reflexivity].
Qed.

Lemma length_digits (s : string) (acc cnt v n : Z) (r : string) :
  digits s acc cnt = (v, n, r) ->
  (String.length r <= String.length s)%nat.
Proof.
  revert acc cnt. induction s as [|c s IH]; intros acc cnt; cbn.
  - intros [= <- <- <-]. cbn. lia.
  - destruct (is_digit c).
    + intros H%IH. lia.
    + intros [= <- <- <-]. cbn. lia.
Qed.

Lemma hex4_length (s : string) (n : N) :
  hex4 s = Some n -> (4 <= String.length s)%nat.
Proof.
  destruct s as [|a [|b [|c [|d s]]]]; cbn; try discriminate. lia.
Qed.

Lemma hexval_LF : hexval LF = None.
Proof. reflexivity. Qed.

Lemma hex4_nl (s : string) : hex4 (s +:+ nl) = hex4 s.
Proof.
  unfold nl.
  destruct s as [|a [|b [|c [|d s]]]]; norm_app; cbn [hex4];
    rewrite ?hexval_LF;
    repeat match goal with
           | |- context [match hexval ?x with _ => _ end] =>
               destruct (hexval x)
           end;
    reflexivity.
Qed.

Lemma escape_length (r : string) (ch : N) (k : nat) :
  escape r = Some (ch, k) -> (1 <= k <= String.length r)%nat.
Proof.
  unfold escape. destruct r as [|e r1]; [discriminate|]. cbn [String.length].
  destruct (Ascii.eqb e "u").
  - destruct (hex4 r1) as [uni|] eqn:H1; [|discriminate].
    apply hex4_length in H1.
    destruct ((55296 <=? uni)%N && (uni <=? 56319)%N
              && String.prefix "\u" (drop 4 r1)) eqn:Hp.
    + destruct (hex4 (drop 6 r1)) as [uni2|] eqn:H2; [|discriminate].
      apply hex4_length in H2. rewrite length_drop in H2.
      destruct ((56320 <=? uni2)%N && (uni2 <=? 57343)%N);
        intros [= <- <-]; lia.
    + intros [= <- <-]. lia.
  - destruct (backslash e); [|discriminate]. intros [= <- <-]. lia.
Qed.

Lemma escape_nl (r : string) : escape (r +:+ nl) = escape r.
Proof.
  unfold escape. destruct r as [|e r1]; [reflexivity|]. norm_app.
  destruct (Ascii.eqb e "u"); [|reflexivity].
  rewrite hex4_nl. destruct (hex4 r1) as [uni|] eqn:H1; [|reflexivity].
  apply hex4_length in H1. rewrite drop_app by exact H1.
  unfold nl. rewrite prefix_sep by reflexivity.
  destruct ((55296 <=? uni)%N && (uni <=? 56319)%N
            && String.prefix "\u" (drop 4 r1)) eqn:Hp; [|reflexivity].
  apply andb_true_iff in Hp as [_ Hp]. apply prefix_length in Hp.
  rewrite length_drop in Hp. cbn in Hp.
  rewrite drop_app by lia. fold nl. now rewrite hex4_nl.
Qed.

Lemma scanstring_nl (s : string) :
  forall k acc,
    scanstring k (s +:+ nl) acc
    = match scanstring k s acc with
      | Some (t, r) => Some (t, r +:+ nl)
      | None => None
      end.
Proof.
  induction s as [|c s IH]; intros k acc.
  - destruct k; reflexivity.
  - norm_app. cbn [scanstring]. destruct k as [|k]; [|apply IH].
    destruct (Ascii.eqb c (ascii_of_nat 34)); [reflexivity|].
    destruct (Ascii.eqb c "\").
    + rewrite escape_nl. destruct (escape s) as [[ch j]|]; [apply IH|].
      reflexivity.
    + destruct (N_of_ascii c <? 32)%N; [reflexivity|apply IH].
Qed.

Lemma length_scanstring (s : string) :
  forall k acc t r,
    scanstring k s acc = Some (t, r) ->
    (String.length r < String.length s)%nat.
Proof.
  induction s as [|c s IH]; intros k acc t r; cbn; [discriminate|].
  destruct k as [|k]; [|intros H%IH; lia].
  destruct (Ascii.eqb c (ascii_of_nat 34)); [intros [= <- <-]; lia|].
  destruct (Ascii.eqb c "\").
  - destruct (escape s) as [[ch j]|]; [|discriminate]. intros H%IH. lia.
  - destruct (N_of_ascii c <? 32)%N; [discriminate|]. intros H%IH. lia.
Qed.
Lemma split_sign_nl (s : string) :
  split_sign (s +:+ nl) = let '(neg, r) := split_sign s in (neg, r +:+ nl).
Proof.
  destruct s as [|c s]; [reflexivity|]. norm_app. unfold split_sign.
  destruct (Ascii.eqb c "-"); [reflexivity|].
  destruct (Ascii.eqb c "+"); reflexivity.
Qed.

Lemma length_split_sign (s r : string) (neg : bool) :
  split_sign s = (neg, r) -> (String.length r <= String.length s)%nat.
Proof.
  unfold split_sign. destruct s as [|c s]; [intros [= <- <-]; lia|].
  destruct (Ascii.eqb c "-"); [intros [= <- <-]; cbn; lia|].
  destruct (Ascii.eqb c "+"); intros [= <- <-]; cbn; lia.
Qed.

Lemma number_frac_nl (v : Z) (s : string) :
  number_frac v (s +:+ nl)
  = let '(m, fc, r) := number_frac v s in (m, fc, r +:+ nl).
Proof.
  destruct s as [|c [|d s]]; [reflexivity| |].
  - unfold nl. norm_app. cbn [number_frac].
    replace (is_digit LF) with false by reflexivity.
    now rewrite andb_false_r.
  - norm_app. cbn [number_frac].
    destruct (Ascii.eqb c "." && is_digit d); [|reflexivity].
    exact (digits_nl (String d s) v 0).
Qed.

Lemma length_number_frac (v m fc : Z) (s r : string) :
  number_frac v s = (m, fc, r) -> (String.length r <= String.length s)%nat.
Proof.
  unfold number_frac. destruct s as [|c [|d s]];
    try (intros [= <- <- <-]; lia).
  destruct (Ascii.eqb c "." && is_digit d); [|intros [= <- <- <-]; lia].
  intros H%length_digits. cbn [String.length] in *. lia.
Qed.

Lemma number_exp_nl (s : string) :
  number_exp (s +:+ nl)
  = let '(ex, r) := number_exp s in (ex, r +:+ nl).
Proof.
  destruct s as [|c s]; [reflexivity|]. norm_app. cbn [number_exp].
  destruct (Ascii.eqb (lower_char c) "e"); [|reflexivity].
  rewrite split_sign_nl. destruct (split_sign s) as [neg r1].
  destruct r1 as [|d r1]; [reflexivity|]. norm_app.
  destruct (is_digit d); [|reflexivity].
  replace (String d (r1 +:+ nl)) with (String d r1 +:+ nl) by reflexivity.
  rewrite digits_nl. now destruct (digits (String d r1) 0 0) as [[v n] r2].
Qed.

Lemma length_number_exp (ex : option Z) (s r : string) :
  number_exp s = (ex, r) -> (String.length r <= String.length s)%nat.
Proof.
  unfold number_exp. destruct s as [|c s]; [intros [= <- <-]; lia|].
  destruct (Ascii.eqb (lower_char c) "e"); [|intros [= <- <-]; lia].
  destruct (split_sign s) as [neg r1] eqn:Hs. apply length_split_sign in Hs.
  destruct r1 as [|d r1]; [intros [= <- <-]; lia|].
  destruct (is_digit d); [|intros [= <- <-]; lia].
  destruct (digits (String d r1) 0 0) as [[v n] r2] eqn:Hd.
  apply length_digits in Hd. intros [= <- <-]. cbn [String.length] in *. lia.
Qed.

Lemma number_body_nl (neg : bool) (r : string) :
  number_body neg (r +:+ nl)
  = match number_body neg r with
    | Some (v, t) => Some (v, t +:+ nl)
    | None => None
    end.
Proof.
  destruct r as [|c r]; [reflexivity|]. norm_app. cbn [number_body].
  destruct (is_digit c); [|reflexivity].
  assert (E : (if Ascii.eqb c "0" then (0, 1, r +:+ nl)
               else digits (String c (r +:+ nl)) 0 0)
              = let '(v, n, r1) := if Ascii.eqb c "0" then (0, 1, r)
                                   else digits (String c r) 0 0 in
                (v, n, r1 +:+ nl)).
  { destruct (Ascii.eqb c "0"); [reflexivity|].
    exact (digits_nl (String c r) 0 0). }
  rewrite E. clear E.
  destruct (if Ascii.eqb c "0" then (0, 1, r) else digits (String c r) 0 0)
    as [[v n] r1].
  rewrite number_frac_nl. destruct (number_frac v r1) as [[m fc] r2].
  rewrite number_exp_nl. destruct (number_exp r2) as [[x|] r3];
    [reflexivity|]. now destruct (fc =? 0).
Qed.

Lemma length_number_body (neg : bool) (r t : string) (v : JSON) :
  number_body neg r = Some (v, t) ->
  (String.length t < String.length r)%nat.
Proof.
  unfold number_body. destruct r as [|c r]; [discriminate|].
  destruct (is_digit c) eqn:Hc; [|discriminate].
  destruct (if Ascii.eqb c "0" then (0, 1, r) else digits (String c r) 0 0)
    as [[v1 n] r1] eqn:E.
  assert (H1 : (String.length r1 <= String.length r)%nat).
  { destruct (Ascii.eqb c "0"); [injection E as <- <- <-; lia|].
    cbn [digits] in E. rewrite Hc in E. now apply length_digits in E. }
  destruct (number_frac v1 r1) as [[m fc] r2] eqn:Hf.
  apply length_number_frac in Hf.
  destruct (number_exp r2) as [ex r3] eqn:He. apply length_number_exp in He.
  cbn [String.length].
  destruct ex; [|destruct (fc =? 0)]; intros [= <- <-]; lia.
Qed.

Lemma match_number_nl (s : string) :
  match_number (s +:+ nl)
  = match match_number s with
    | Some (v, t) => Some (v, t +:+ nl)
    | None => None
    end.
Proof.
  destruct s as [|c s]; [reflexivity|]. norm_app. cbn [match_number].
  destruct (Ascii.eqb c "-"); [apply number_body_nl|].
  exact (number_body_nl false (String c s)).
Qed.

Lemma length_match_number (s t : string) (v : JSON) :
  match_number s = Some (v, t) -> (String.length t < String.length s)%nat.
Proof.
  unfold match_number. destruct s as [|c s]; [discriminate|].
  destruct (Ascii.eqb c "-").
  - intros H%length_number_body. cbn. lia.
  - apply length_number_body.
Qed.
Lemma prefix_nl (p s : string) :
  has_char LF p = false -> String.prefix p (s +:+ nl) = String.prefix p s.
Proof. intros H. unfold nl. now apply prefix_sep. Qed.

(** A literal at the head of the text, as [scan_once] tests it. *)
Lemma keyword_nl (p s : string) (k : nat) (v : JSON)
  (x y : result (JSON * string)) :
  has_char LF p = false -> k = String.length p -> y = after_nl x ->
  (if String.prefix p (s +:+ nl) then Ok (v, drop k (s +:+ nl)) else y)
  = after_nl (if String.prefix p s then Ok (v, drop k s) else x).
Proof.
  intros Hp -> ->. rewrite prefix_nl by exact Hp.
  destruct (String.prefix p s) eqn:E; [|reflexivity].
  apply prefix_length in E. now rewrite drop_app by exact E.
Qed.

Lemma scan_once_empty (n : nat) :
  scan_once n "" = after_nl (scan_once n "").
Proof. destruct n; reflexivity. Qed.

Lemma JSONArray_loop_empty (n : nat) (values : list JSON) :
  JSONArray_loop n "" values = after_nl (JSONArray_loop n "" values).
Proof. destruct n as [|[|n]]; reflexivity. Qed.

(** A line feed after the text changes nothing to a run of the scanner but
    what is left. *)
Lemma scan_nl (n : nat) :
  (forall s, scan_once n (s +:+ nl) = after_nl (scan_once n s))
  /\ (forall values s,
        JSONArray_loop n (s +:+ nl) values
        = after_nl (JSONArray_loop n s values))
  /\ (forall pairs s,
        JSONObject_loop n (s +:+ nl) pairs
        = after_nl (JSONObject_loop n s pairs)).
Proof.
  induction n as [|n (IHs & IHa & IHo)]; [now repeat split|].
  split; [|split].
  - intros [|c r]; [reflexivity|]. norm_app. cbn [scan_once].
    destruct (Ascii.eqb c (ascii_of_nat 34)).
    { rewrite scanstring_nl. now destruct (scanstring 0 r []) as [[t r']|]. }
    destruct (Ascii.eqb c "{").
    { rewrite skip_ws_nl. destruct (skip_ws r) as [|c' r']; [reflexivity|].
      norm_app. destruct (Ascii.eqb c' "}"); [reflexivity|].
      destruct (Ascii.eqb c' (ascii_of_nat 34)); [apply IHo|reflexivity]. }
    destruct (Ascii.eqb c "[").
    { rewrite skip_ws_nl. destruct (skip_ws r) as [|c' r']; [reflexivity|].
      norm_app. destruct (Ascii.eqb c' "]"); [reflexivity|].
      exact (IHa [] (String c' r')). }
    change (String c (r +:+ nl)) with (String c r +:+ nl).
    repeat (apply keyword_nl; [reflexivity|reflexivity|]).
    rewrite match_number_nl.
    destruct (match_number (String c r)) as [[v t]|]; [reflexivity|].
    repeat (apply keyword_nl; [reflexivity|reflexivity|]).
    reflexivity.
  - intros values s. cbn [JSONArray_loop]. rewrite IHs.
    destruct (scan_once n s) as [[v r]| |]; cbn [after_nl]; try reflexivity.
    rewrite skip_ws_nl. destruct (skip_ws r) as [|c r']; [reflexivity|].
    norm_app. destruct (Ascii.eqb c "]"); [reflexivity|].
    destruct (Ascii.eqb c ","); [|reflexivity].
    rewrite skip_ws_nl. destruct (skip_ws r') as [|c2 r2].
    + apply JSONArray_loop_empty.
    + apply IHa.
  - intros pairs s. cbn [JSONObject_loop]. rewrite scanstring_nl.
    destruct (scanstring 0 s []) as [[key r]|]; [|reflexivity].
    rewrite skip_ws_nl. destruct (skip_ws r) as [|c1 r1]; [reflexivity|].
    norm_app. destruct (Ascii.eqb c1 ":"); [|reflexivity].
    rewrite skip_ws_nl.
    destruct (skip_ws r1) as [|c3 r1']; [destruct n; reflexivity|].
    rewrite IHs.
    destruct (scan_once n (String c3 r1')) as [[v r2]| |]; cbn [after_nl];
      try reflexivity.
    rewrite skip_ws_nl. destruct (skip_ws r2) as [|c2 r3]; [reflexivity|].
    norm_app. destruct (Ascii.eqb c2 "}"); [reflexivity|].
    destruct (Ascii.eqb c2 ","); [|reflexivity].
    rewrite skip_ws_nl. destruct (skip_ws r3) as [|c' r4]; [reflexivity|].
    norm_app. destruct (Ascii.eqb c' (ascii_of_nat 34)); [|reflexivity].
    apply IHo.
Qed.

(** ** The bound of the scanner *)

Lemma skip_ws_cons (s r : string) (c : ascii) :
  skip_ws s = String c r -> (String.length r < String.length s)%nat.
Proof.
  intros H. pose proof (length_skip_ws s) as L. rewrite H in L.
  cbn [String.length] in L. lia.
Qed.

(** The case of a literal: what is left is shorter. *)
Ltac keyword_length p :=
  let E := fresh "E" in
  destruct (String.prefix p _) eqn:E;
  [apply prefix_length in E;
   match goal with
   | |- Ok (_, drop ?k ?s) = Ok (_, ?r) -> _ =>
       let H := fresh "H" in
       intros H; replace r with (drop k s) by congruence;
       rewrite length_drop; cbn [String.length] in *; lia
   end|].

Ltac keyword_case p := destruct (String.prefix p _); [discriminate|].

(** A successful run takes at least one character. *)
Lemma scan_length (n : nat) :
  (forall s v r, scan_once n s = Ok (v, r) ->
                 (String.length r < String.length s)%nat)
  /\ (forall values s v r,
        JSONArray_loop n s values = Ok (v, r) ->
        (String.length r < String.length s)%nat)
  /\ (forall pairs s v r,
        JSONObject_loop n s pairs = Ok (v, r) ->
        (String.length r < String.length s)%nat).
Proof.
  induction n as [|n (IHs & IHa & IHo)]; [now repeat split|].
  split; [|split].
  - intros [|c r0] v r; [discriminate|]. cbn [scan_once].
    destruct (Ascii.eqb c (ascii_of_nat 34)).
    { destruct (scanstring 0 r0 []) as [[t r']|] eqn:E; [|discriminate].
      apply length_scanstring in E. intros [= <- <-]. cbn. lia. }
    destruct (Ascii.eqb c "{").
    { destruct (skip_ws r0) as [|c' r'] eqn:E; [discriminate|].
      apply skip_ws_cons in E.
      destruct (Ascii.eqb c' "}"); [intros [= <- <-]; cbn; lia|].
      destruct (Ascii.eqb c' (ascii_of_nat 34)); [|discriminate].
      intros H%IHo. cbn. lia. }
    destruct (Ascii.eqb c "[").
    { destruct (skip_ws r0) as [|c' r'] eqn:E; [discriminate|].
      pose proof (length_skip_ws r0) as L. rewrite E in L.
      destruct (Ascii.eqb c' "]");
        [intros [= <- <-]; cbn in *; lia|].
      intros H%IHa. cbn in *. lia. }
    keyword_length "null". keyword_length "true". keyword_length "false".
    destruct (match_number (String c r0)) as [[w t]|] eqn:En.
    { apply length_match_number in En. now intros [= <- <-]. }
    keyword_length "NaN". keyword_length "Infinity".
    keyword_length "-Infinity".
    discriminate.
  - intros values s v r. cbn [JSONArray_loop].
    destruct (scan_once n s) as [[w t]| |] eqn:E; try discriminate.
    apply IHs in E.
    destruct (skip_ws t) as [|c t'] eqn:E1; [discriminate|].
    apply skip_ws_cons in E1.
    destruct (Ascii.eqb c "]"); [intros [= <- <-]; lia|].
    destruct (Ascii.eqb c ","); [|discriminate].
    intros H%IHa. pose proof (length_skip_ws t') as L1. lia.
  - intros pairs s v r. cbn [JSONObject_loop].
    destruct (scanstring 0 s []) as [[key t]|] eqn:E; [|discriminate].
    apply length_scanstring in E.
    destruct (skip_ws t) as [|c1 t1] eqn:E1; [discriminate|].
    apply skip_ws_cons in E1.
    destruct (Ascii.eqb c1 ":"); [|discriminate].
    destruct (scan_once n (skip_ws t1)) as [[w t2]| |] eqn:E2;
      try discriminate.
    apply IHs in E2. pose proof (length_skip_ws t1) as L1.
    destruct (skip_ws t2) as [|c2 t3] eqn:E3; [discriminate|].
    apply skip_ws_cons in E3.
    destruct (Ascii.eqb c2 "}"); [intros [= <- <-]; lia|].
    destruct (Ascii.eqb c2 ","); [|discriminate].
    destruct (skip_ws t3) as [|c' t4] eqn:E4; [discriminate|].
    apply skip_ws_cons in E4.
    destruct (Ascii.eqb c' (ascii_of_nat 34)); [|discriminate].
    intros H%IHo. lia.
Qed.

(** With twice the length of the text and a step more the scanner does not
    stop at its bound. *)
Lemma scan_fuel (n : nat) :
  (forall s, (2 * String.length s < n)%nat -> scan_once n s <> Fuel)
  /\ (forall values s, (2 * String.length s + 1 < n)%nat ->
                       JSONArray_loop n s values <> Fuel)
  /\ (forall pairs s, (2 * String.length s + 1 < n)%nat ->
                      JSONObject_loop n s pairs <> Fuel).
Proof.
  induction n as [|n (IHs & IHa & IHo)]; [repeat split; intros; lia|].
  pose proof (scan_length n) as (Ls & La & Lo).
  split; [|split].
  - intros [|c r0] Hn; [discriminate|]. cbn [scan_once String.length] in *.
    destruct (Ascii.eqb c (ascii_of_nat 34)).
    { now destruct (scanstring 0 r0 []) as [[t r']|]. }
    destruct (Ascii.eqb c "{").
    { destruct (skip_ws r0) as [|c' r'] eqn:E; [discriminate|].
      apply skip_ws_cons in E.
      destruct (Ascii.eqb c' "}"); [discriminate|].
      destruct (Ascii.eqb c' (ascii_of_nat 34)); [|discriminate].
      apply IHo. lia. }
    destruct (Ascii.eqb c "[").
    { destruct (skip_ws r0) as [|c' r'] eqn:E; [discriminate|].
      pose proof (length_skip_ws r0) as L. rewrite E in L.
      destruct (Ascii.eqb c' "]"); [discriminate|].
      apply IHa. lia. }
    keyword_case "null". keyword_case "true". keyword_case "false".
    destruct (match_number (String c r0)) as [[w t]|]; [discriminate|].
    keyword_case "NaN". keyword_case "Infinity". keyword_case "-Infinity".
    discriminate.
  - intros values s Hn. cbn [JSONArray_loop].
    destruct (scan_once n s) as [[w t]| |] eqn:E; [|discriminate|].
    + apply Ls in E.
      destruct (skip_ws t) as [|c t'] eqn:E1; [discriminate|].
      apply skip_ws_cons in E1.
      destruct (Ascii.eqb c "]"); [discriminate|].
      destruct (Ascii.eqb c ","); [|discriminate].
      apply IHa. pose proof (length_skip_ws t') as L1. lia.
    + exfalso. revert E. apply IHs. lia.
  - intros pairs s Hn. cbn [JSONObject_loop].
    destruct (scanstring 0 s []) as [[key t]|] eqn:E; [|discriminate].
    apply length_scanstring in E.
    destruct (skip_ws t) as [|c1 t1] eqn:E1; [discriminate|].
    apply skip_ws_cons in E1.
    destruct (Ascii.eqb c1 ":"); [|discriminate].
    pose proof (length_skip_ws t1) as L1.
    destruct (scan_once n (skip_ws t1)) as [[w t2]| |] eqn:E2;
      [|discriminate|].
    + apply Ls in E2.
      destruct (skip_ws t2) as [|c2 t3] eqn:E3; [discriminate|].
      apply skip_ws_cons in E3.
      destruct (Ascii.eqb c2 "}"); [discriminate|].
      destruct (Ascii.eqb c2 ","); [|discriminate].
      destruct (skip_ws t3) as [|c' t4] eqn:E4; [discriminate|].
      apply skip_ws_cons in E4.
      destruct (Ascii.eqb c' (ascii_of_nat 34)); [|discriminate].
      apply IHo. lia.
    + exfalso. revert E2. apply IHs. lia.
Qed.

(** A run that does not stop at its bound is the run of any larger
    bound. *)
Lemma scan_mono (n : nat) :
  forall m, (n <= m)%nat ->
    (forall s, scan_once n s <> Fuel -> scan_once m s = scan_once n s)
    /\ (forall values s, JSONArray_loop n s values <> Fuel ->
          JSONArray_loop m s values = JSONArray_loop n s values)
    /\ (forall pairs s, JSONObject_loop n s pairs <> Fuel ->
          JSONObject_loop m s pairs = JSONObject_loop n s pairs).
Proof.
  induction n as [|n IH].
  { repeat split; intros;
      match goal with H : _ <> Fuel |- _ => now elim H end. }
  intros [|m] Hm; [lia|]. destruct (IH m) as (IHs & IHa & IHo); [lia|].
  clear IH. split; [|split].
  - intros [|c r0]; [reflexivity|]. cbn [scan_once].
    destruct (Ascii.eqb c (ascii_of_nat 34)); [reflexivity|].
    destruct (Ascii.eqb c "{").
    { destruct (skip_ws r0) as [|c' r']; [reflexivity|].
      destruct (Ascii.eqb c' "}"); [reflexivity|].
      destruct (Ascii.eqb c' (ascii_of_nat 34)); [apply IHo|reflexivity]. }
    destruct (Ascii.eqb c "[").
    { destruct (skip_ws r0) as [|c' r']; [reflexivity|].
      destruct (Ascii.eqb c' "]"); [reflexivity|apply IHa]. }
    reflexivity.
  - intros values s. cbn [JSONArray_loop].
    destruct (scan_once n s) as [[w t]| |] eqn:E; [| |congruence].
    + rewrite IHs, E by congruence.
      destruct (skip_ws t) as [|c t']; [reflexivity|].
      destruct (Ascii.eqb c "]"); [reflexivity|].
      destruct (Ascii.eqb c ","); [apply IHa|reflexivity].
    + now rewrite IHs, E by congruence.
  - intros pairs s. cbn [JSONObject_loop].
    destruct (scanstring 0 s []) as [[key t]|]; [|reflexivity].
    destruct (skip_ws t) as [|c1 t1]; [reflexivity|].
    destruct (Ascii.eqb c1 ":"); [|reflexivity].
    destruct (scan_once n (skip_ws t1)) as [[w t2]| |] eqn:E;
      [| |congruence].
    + rewrite IHs, E by congruence.
      destruct (skip_ws t2) as [|c2 t3]; [reflexivity|].
      destruct (Ascii.eqb c2 "}"); [reflexivity|].
      destruct (Ascii.eqb c2 ","); [|reflexivity].
      destruct (skip_ws t3) as [|c' t4]; [reflexivity|].
      destruct (Ascii.eqb c' (ascii_of_nat 34)); [apply IHo|reflexivity].
    + now rewrite IHs, E by congruence.
Qed.

(** ** The decoder *)

Lemma decode_fuel (s : string) (n : nat) :
  decode (fuel_for s + n) s = decode (fuel_for s) s
  /\ decode (fuel_for s) s <> Fuel.
Proof.
  unfold decode, fuel_for.
  assert (F : scan_once (S (2 * String.length s)) (skip_ws s) <> Fuel).
  { apply (scan_fuel (S (2 * String.length s))).
    pose proof (length_skip_ws s). lia. }
  destruct (scan_mono (S (2 * String.length s))
              (S (2 * String.length s) + n)) as (M & _); [lia|].
  rewrite (M _ F). split; [reflexivity|].
  destruct (scan_once (S (2 * String.length s)) (skip_ws s)) as [[v r]| |];
    [|discriminate|congruence].
  destruct (skip_ws r); discriminate.
Qed.

Lemma decode_nl (n : nat) (s : string) : decode n (s +:+ nl) = decode n s.
Proof.
  unfold decode. rewrite skip_ws_nl.
  destruct (skip_ws s) as [|c t]; [reflexivity|].
  destruct (scan_nl n) as (H & _). rewrite H.
  destruct (scan_once n (String c t)) as [[v r]| |]; cbn [after_nl];
    try reflexivity.
  rewrite skip_ws_nl. now destruct (skip_ws r).
Qed.

Lemma decode_nl_l (n : nat) (s : string) : decode n (nl +:+ s) = decode n s.
Proof. reflexivity. Qed.

(** The decoder does not see a line feed before or after the text. *)
Lemma json_loads_nl (s : string) :
  json_loads (nl +:+ s +:+ nl) = json_loads s.
Proof.
  unfold json_loads.
  assert (E : fuel_for (nl +:+ s +:+ nl) = (fuel_for s + 4)%nat).
  { unfold fuel_for, nl. norm_app. cbn [String.length].
    rewrite length_app. cbn [String.length]. lia. }
  rewrite E, decode_nl_l, decode_nl.
  now rewrite (proj1 (decode_fuel s 4)).
Qed.

(** ** The ResponseParser *)



(** The example of the financial prompt, fenced: the decoded record has
    "100B" as the revenue of the current year. *)
Lemma fenced_example_decoded :
  match json_loads (unfence (fenced financial_example)) with
  | Some data =>
      field data "revenue_analysis" "current_year_revenue" JNull
      = Some (JStr (codes "100B"))
  | None => False
  end.
Proof. vm_compute. reflexivity. Qed.

(** A text that is not JSON is reported with the answer as it came. *)
Lemma apology_not_decoded (data : gmap string sessval) :
  store_answer FinancialAnalysis "Sorry, I cannot process this request." data
  = (data, [st_error (decode_error FinancialAnalysis);
            st_code "Sorry, I cannot process this request."]).
Proof.
  unfold store_answer.
  replace (json_loads (unfence "Sorry, I cannot process this request."))
    with (@None JSON) by (vm_compute; reflexivity).
  reflexivity.
Qed.





(** * Further properties *)

(** ** Exact conversions of [float] *)

Lemma log2_below (P : Z) : 0 < P < 2 ^ 53 -> 0 <= Z.log2 P <= 52.
Proof.
  intros [HP Hlt]. split; [apply Z.log2_nonneg|].
  assert (Z.log2 P < 53); [|lia]. apply Z.log2_lt_pow2; lia.
Qed.

Lemma scaled_bounds (P : Z) :
  0 < P < 2 ^ 53 ->
  2 ^ 52 <= P * 2 ^ (52 - Z.log2 P) < 2 ^ 53.
Proof.
  intros HP. pose proof (log2_below P HP) as HL.
  destruct (Z.log2_spec P) as [Hl Hu]; [lia|].
  assert (E52 : 2 ^ 52 = 2 ^ Z.log2 P * 2 ^ (52 - Z.log2 P)).
  { rewrite <- Z.pow_add_r by lia. f_equal. lia. }
  assert (E53 : 2 ^ 53 = 2 ^ Z.succ (Z.log2 P) * 2 ^ (52 - Z.log2 P)).
  { rewrite <- Z.pow_add_r by lia. f_equal. lia. }
  assert (0 < 2 ^ (52 - Z.log2 P)) by (apply Z.pow_pos_nonneg; lia).
  rewrite E52 at 1. rewrite E53. split.
  - apply Z.mul_le_mono_nonneg_r; lia.
  - apply Z.mul_lt_mono_pos_r; lia.
Qed.

(** A positive integer below 2^53, given as a quotient by a power of two,
    is rounded to itself. *)
Lemma round_pos_exact (neg : bool) (P j : Z) :
  0 < P < 2 ^ 53 -> 0 <= j ->
  round_pos neg (P * 2 ^ j) (2 ^ j)
  = FFin neg (P * 2 ^ (52 - Z.log2 P)) (Z.log2 P - 52).
Proof.
  intros HP Hj. pose proof (log2_below P HP) as HL.
  pose proof (scaled_bounds P HP) as HM.
  assert (Hj2 : 0 < 2 ^ j) by (apply Z.pow_pos_nonneg; lia).
  unfold round_pos.
  rewrite Z.log2_mul_pow2, Z.log2_pow2 by lia.
  replace (j + Z.log2 P - j - 52) with (Z.log2 P - 52) by lia.
  set (e0 := Z.log2 P - 52).
  set (M := P * 2 ^ (52 - Z.log2 P)) in *.
  assert (Es : (if 0 <=? e0 then P * 2 ^ j / (2 ^ j * 2 ^ e0)
                else P * 2 ^ j * 2 ^ (- e0) / 2 ^ j) = M).
  { unfold M, e0. destruct (Z.leb_spec 0 (Z.log2 P - 52)).
    - replace (Z.log2 P - 52) with 0 by lia.
      replace (52 - Z.log2 P) with 0 by lia.
      rewrite Z.pow_0_r, !Z.mul_1_r. apply Z.div_mul. lia.
    - replace (- (Z.log2 P - 52)) with (52 - Z.log2 P) by lia.
      replace (P * 2 ^ j * 2 ^ (52 - Z.log2 P))
        with (P * 2 ^ (52 - Z.log2 P) * 2 ^ j) by ring.
      apply Z.div_mul. lia. }
  rewrite Es.
  destruct (Z.ltb_spec M (2 ^ 52)); [lia|].
  destruct (Z.leb_spec (2 ^ 53) M); [lia|].
  rewrite Z.max_l by (unfold e0; lia).
  assert (Em : (if 0 <=? e0 then P * 2 ^ j else P * 2 ^ j * 2 ^ (- e0))
               = M * (if 0 <=? e0 then 2 ^ j * 2 ^ e0 else 2 ^ j)).
  { unfold M, e0. destruct (Z.leb_spec 0 (Z.log2 P - 52)).
    - replace (Z.log2 P - 52) with 0 by lia.
      replace (52 - Z.log2 P) with 0 by lia. rewrite Z.pow_0_r. ring.
    - replace (- (Z.log2 P - 52)) with (52 - Z.log2 P) by lia. ring. }
  rewrite Em.
  set (den := if 0 <=? e0 then 2 ^ j * 2 ^ e0 else 2 ^ j).
  assert (Hden : 0 < den).
  { unfold den. destruct (0 <=? e0) eqn:E; [|exact Hj2].
    apply Z.mul_pos_pos; [exact Hj2|]. apply Z.pow_pos_nonneg; lia. }
  rewrite Z.div_mul, Z.mod_mul by lia.
  destruct (Z.ltb_spec (2 * 0) den); [|lia].
  destruct (Z.eqb_spec M (2 ^ 53)); [lia|].
  destruct (Z.eqb_spec M 0); [lia|].
  destruct (Z.ltb_spec 971 e0); [unfold e0 in *; lia|].
  reflexivity.
Qed.

Lemma F64_to_Z_exact (neg : bool) (P : Z) :
  0 < P < 2 ^ 53 ->
  F64_to_Z (FFin neg (P * 2 ^ (52 - Z.log2 P)) (Z.log2 P - 52))
  = Some (if neg then - P else P).
Proof.
  intros HP. pose proof (log2_below P HP) as HL. unfold F64_to_Z.
  destruct (Z.leb_spec 0 (Z.log2 P - 52)).
  - replace (Z.log2 P - 52) with 0 by lia.
    replace (52 - Z.log2 P) with 0 by lia.
    now rewrite Z.pow_0_r, !Z.mul_1_r.
  - replace (- (Z.log2 P - 52)) with (52 - Z.log2 P) by lia.
    assert (0 < 2 ^ (52 - Z.log2 P)) by (apply Z.pow_pos_nonneg; lia).
    rewrite Z.mod_mul, Z.div_mul by lia. reflexivity.
Qed.

(** [float] of an integer below 2^53 and its product by an integer, when
    the product is below 2^53 too, are exact. *)
Lemma F64_of_decimal_int (n : Z) :
  0 <= n < 2 ^ 53 ->
  F64_of_decimal false n 0
  = if n =? 0 then FZero false
    else FFin false (n * 2 ^ (52 - Z.log2 n)) (Z.log2 n - 52).
Proof.
  intros Hn. unfold F64_of_decimal.
  destruct (Z.eqb_spec n 0) as [->|Hne]; [reflexivity|].
  change (0 <=? 0) with true. cbv iota.
  change (round_pos false (n * 10 ^ 0) 1)
    with (round_pos false (n * 2 ^ 0) (2 ^ 0)).
  apply round_pos_exact; lia.
Qed.

Lemma F64_mul_int_exact (n k : Z) :
  0 <= n -> 0 < k -> n * k < 2 ^ 53 ->
  F64_to_Z (F64_mul_int (F64_of_decimal false n 0) k) = Some (n * k).
Proof.
  intros Hn Hk Hnk. assert (Hn53 : 0 <= n < 2 ^ 53) by nia.
  rewrite F64_of_decimal_int by exact Hn53.
  destruct (Z.eqb_spec n 0) as [->|Hne]; [reflexivity|].
  pose proof (log2_below n ltac:(lia)) as HL.
  unfold F64_mul_int.
  assert (E : (if 0 <=? Z.log2 n - 52
               then round_pos false
                      (n * 2 ^ (52 - Z.log2 n) * k * 2 ^ (Z.log2 n - 52)) 1
               else round_pos false (n * 2 ^ (52 - Z.log2 n) * k)
                      (2 ^ (- (Z.log2 n - 52))))
              = round_pos false (n * k * 2 ^ (52 - Z.log2 n))
                  (2 ^ (52 - Z.log2 n))).
  { destruct (Z.leb_spec 0 (Z.log2 n - 52)).
    - replace (Z.log2 n - 52) with 0 by lia.
      replace (52 - Z.log2 n) with 0 by lia.
      rewrite !Z.pow_0_r. f_equal. ring.
    - replace (- (Z.log2 n - 52)) with (52 - Z.log2 n) by lia.
      f_equal. ring. }
  rewrite E, round_pos_exact by nia. apply (F64_to_Z_exact false). nia.
Qed.

(** ** The Numeric Normalizer on whole classes of texts *)

Lemma remove_char_id (c : ascii) (s : string) :
  has_char c s = false -> remove_char c s = s.
Proof.
  induction s as [|x r IH]; [reflexivity|]. cbn [has_char remove_char].
  intros [Hx Hr]%orb_false_iff. rewrite Hx. now rewrite IH.
Qed.

Lemma remove_char_app (c : ascii) (a b : string) :
  remove_char c (a +:+ b) = remove_char c a +:+ remove_char c b.
Proof.
  induction a as [|x a IH]; [reflexivity|]. rewrite app_cons.
  cbn [remove_char].
  destruct (Ascii.eqb x c); [exact IH|]. now rewrite app_cons, IH.
Qed.

Lemma lower_app (a b : string) : lower (a +:+ b) = lower a +:+ lower b.
Proof.
  induction a as [|x a IH]; [reflexivity|]. rewrite app_cons.
  cbn [lower]. now rewrite app_cons, IH.
Qed.

Lemma clean_spec (s : string) :
  clean s = remove_char "%" (remove_char "," (remove_char "$" (lower s))).
Proof. unfold clean. now rewrite !replace_char. Qed.

Lemma clean_app (a b : string) : clean (a +:+ b) = clean a +:+ clean b.
Proof. now rewrite !clean_spec, lower_app, !remove_char_app. Qed.

Lemma clean_sign (c : ascii) :
  has_char c "$,%" = true -> clean (String c "") = "".
Proof.
  cbn [has_char]. destruct (Ascii.eqb_spec "$" c) as [<-|]; [reflexivity|].
  destruct (Ascii.eqb_spec "," c) as [<-|]; [reflexivity|].
  destruct (Ascii.eqb_spec "%" c) as [<-|]; [reflexivity|discriminate].
Qed.

(** A dollar sign, a comma or a percent sign changes nothing, wherever it
    stands in the text. *)
Theorem normalize_ignores_signs (a b : string) (c : ascii) :
  has_char c "$,%" = true ->
  parse_financial_value (VStr (a +:+ String c b))
  = parse_financial_value (VStr (a +:+ b)).
Proof.
  intros Hc. unfold parse_financial_value. cbn [is_number].
  replace (a +:+ String c b) with (a +:+ String c "" +:+ b)
    by reflexivity.
  now rewrite !clean_app, (clean_sign c Hc), app_nil_l.
Qed.

Lemma normalize_ignores_signs_witness :
  parse_financial_value (VStr ("1" +:+ String "," "000"))
  = parse_financial_value (VStr ("1" +:+ "000")).
Proof. apply (normalize_ignores_signs "1" "000" ","). reflexivity. Defined.

(** A character that is neither of a number, nor a suffix letter, nor one
    of the three signs sends the whole text to the fallback: there is no
    suffix for thousands, for one. *)
Theorem normalize_unsupported (s : string) (c : ascii) :
  has_char c (lower s) = true ->
  normalizer_char c = false ->
  parse_financial_value (VStr s) = VInt 0.
Proof.
  unfold normalizer_char. intros Hc [Hf Hn]%orb_false_iff.
  cbn [has_char] in Hn. rewrite orb_false_r in Hn.
  apply orb_false_iff in Hn as [Hb Hn]. apply orb_false_iff in Hn as [Hm Hn].
  apply orb_false_iff in Hn as [Hd Hn]. apply orb_false_iff in Hn as [Hk Hp].
  assert (Hcl : has_char c (clean s) = true).
  { rewrite has_char_clean, Hc. rewrite (Ascii.eqb_sym c "$"), Hd.
    rewrite (Ascii.eqb_sym c ","), Hk. now rewrite (Ascii.eqb_sym c "%"), Hp. }
  assert (E : forall x t, Ascii.eqb x c = false ->
                has_char c t = true ->
                float_of_str (replace (String x "") "" t) = None).
  { intros x t Hx Ht.
    destruct (float_of_str (replace (String x "") "" t)) as [f|] eqn:Ef;
      [|reflexivity].
    assert (Hr : has_char c (replace (String x "") "" t) = true).
    { rewrite replace_char, has_char_remove, Ht.
      now rewrite (Ascii.eqb_sym c x), Hx. }
    pose proof (float_of_str_chars _ _ _ Ef Hr). congruence. }
  unfold parse_financial_value. cbn [is_number]. unfold suffix.
  destruct (contains "b" (clean s)); [now rewrite (E "b"%char)|].
  destruct (contains "m" (clean s)); [now rewrite (E "m"%char)|].
  destruct (float_of_str (clean s)) as [f|] eqn:Ef; [|reflexivity].
  pose proof (float_of_str_chars _ _ _ Ef Hcl). congruence.
Qed.

Lemma normalize_unsupported_witness :
  parse_financial_value (VStr "10K") = VInt 0.
Proof. apply (normalize_unsupported "10K" "k"); reflexivity. Defined.

(** ** Whole amounts *)

Lemma digit_facts (c : ascii) :
  is_digit c = true ->
  lower_char c = c /\ is_float_space c = false
  /\ Ascii.eqb c "_" = false /\ Ascii.eqb c "-" = false
  /\ Ascii.eqb c "+" = false /\ Ascii.eqb c "i" = false
  /\ Ascii.eqb c "n" = false /\ Ascii.eqb c "b" = false
  /\ Ascii.eqb c "m" = false /\ Ascii.eqb c "$" = false
  /\ Ascii.eqb c "," = false /\ Ascii.eqb c "%" = false.
Proof.
  destruct c as [[] [] [] [] [] [] [] []]; vm_compute; intros H;
    (discriminate H || now repeat split).
Qed.

Lemma digits_all (d : string) :
  all_chars is_digit d = true ->
  forall acc cnt,
    exists v, digits d acc cnt = (v, cnt + Z.of_nat (String.length d), "").
Proof.
  induction d as [|c d IH]; intros Hd acc cnt.
  - exists acc. cbn. f_equal. f_equal. lia.
  - cbn [all_chars] in Hd. apply andb_true_iff in Hd as [Hc Hd].
    cbn [digits]. rewrite Hc.
    destruct (IH Hd (10 * acc + digit_val c) (cnt + 1)) as [v Hv].
    exists v. rewrite Hv. f_equal. f_equal. cbn [String.length]. lia.
Qed.

Lemma has_char_digits_only (x : ascii) (d : string) :
  all_chars is_digit d = true -> is_digit x = false -> has_char x d = false.
Proof.
  intros Hd Hx. induction d as [|c d IH]; [reflexivity|].
  cbn [all_chars] in Hd. apply andb_true_iff in Hd as [Hc Hd].
  cbn [has_char]. rewrite (IH Hd).
  destruct (Ascii.eqb_spec c x) as [->|]; [congruence|reflexivity].
Qed.

Lemma lower_digits (d : string) :
  all_chars is_digit d = true -> lower d = d.
Proof.
  induction d as [|c d IH]; [reflexivity|]. cbn [all_chars lower].
  intros [Hc Hd]%andb_true_iff.
  destruct (digit_facts c Hc) as (-> & _). now rewrite IH.
Qed.

Lemma underscores_ok_digits (d : string) :
  all_chars is_digit d = true ->
  forall prev, Ascii.eqb prev "_" = false -> underscores_ok prev d = true.
Proof.
  induction d as [|c d IH]; intros Hd prev Hp; cbn [underscores_ok].
  - now rewrite Hp.
  - cbn [all_chars] in Hd. apply andb_true_iff in Hd as [Hc Hd].
    destruct (digit_facts c Hc) as (_ & _ & Hu & _).
    rewrite Hu, Hp. cbn [andb negb]. now apply IH.
Qed.

Lemma strip_with_none (sp : ascii -> bool) (s : string) :
  all_chars (fun c => negb (sp c)) s = true -> strip_with sp s = s.
Proof.
  intros H. unfold strip_with.
  assert (L : lstrip sp s = s).
  { destruct s as [|c r]; [reflexivity|]. cbn [all_chars] in H.
    apply andb_true_iff in H as [Hc _]. cbn [lstrip].
    now destruct (sp c). }
  rewrite L. induction s as [|c r IH]; [reflexivity|].
  cbn [all_chars] in H. apply andb_true_iff in H as [Hc Hr].
  assert (Lr : lstrip sp r = r).
  { destruct r as [|c' r']; [reflexivity|]. cbn [all_chars] in Hr.
    apply andb_true_iff in Hr as [Hc' _]. cbn [lstrip].
    now destruct (sp c'). }
  cbn [rstrip]. rewrite (IH Hr Lr). destruct r; [|reflexivity].
  now destruct (sp c).
Qed.

Lemma all_chars_impl (p q : ascii -> bool) (s : string) :
  (forall c, p c = true -> q c = true) ->
  all_chars p s = true -> all_chars q s = true.
Proof.
  intros Hpq. induction s as [|c r IH]; [reflexivity|]. cbn [all_chars].
  intros [Hc Hr]%andb_true_iff. now rewrite (Hpq c Hc), IH.
Qed.

(** [float] of a run of digits is the number the digits denote. *)
Lemma float_of_digits (d : string) :
  d <> "" -> all_chars is_digit d = true ->
  float_of_str d = Some (F64_of_decimal false (digits_value d) 0).
Proof.
  intros Hne Hd. unfold float_of_str, digits_value.
  rewrite (underscores_ok_digits d Hd zero eq_refl).
  rewrite remove_char_id
    by (apply has_char_digits_only; [exact Hd|reflexivity]).
  rewrite strip_with_none.
  2:{ apply (all_chars_impl is_digit); [|exact Hd].
      intros c Hc. destruct (digit_facts c Hc) as (_ & -> & _).
      reflexivity. }
  destruct d as [|c r]; [congruence|].
  pose proof Hd as Hd'. cbn [all_chars] in Hd'.
  apply andb_true_iff in Hd' as [Hc Hr].
  destruct (digit_facts c Hc) as (Hl & _ & _ & Hm & Hp & Hi & Hn & _).
  unfold split_sign. rewrite Hm, Hp.
  rewrite (lower_digits _ Hd).
  assert (E1 : String.eqb (String c r) "inf" = false).
  { cbn [String.eqb]. now rewrite Hi. }
  assert (E2 : String.eqb (String c r) "infinity" = false).
  { cbn [String.eqb]. now rewrite Hi. }
  assert (E3 : String.eqb (String c r) "nan" = false).
  { cbn [String.eqb]. now rewrite Hn. }
  rewrite E1, E2, E3. cbn [orb]. unfold decimal.
  destruct (digits_all _ Hd 0 0) as [v Hv]. rewrite Hv.
  cbn [point_digits exponent fst].
  assert (L : (0 <? 0 + Z.of_nat (String.length (String c r)) + 0) = true).
  { apply Z.ltb_lt. cbn [String.length]. lia. }
  rewrite L. reflexivity.
Qed.

Lemma digits_value_nonneg (d : string) : 0 <= digits_value d.
Proof.
  unfold digits_value.
  assert (H : forall acc cnt, 0 <= acc -> 0 <= fst (fst (digits d acc cnt))).
  { induction d as [|c d IH]; intros acc cnt Ha; [exact Ha|].
    cbn [digits]. destruct (is_digit c) eqn:Hc; [|exact Ha].
    apply IH. unfold digit_val. unfold is_digit in Hc.
    apply andb_true_iff in Hc as [H1 _]. apply N.leb_le in H1. lia. }
  apply H. lia.
Qed.

Lemma has_char_app (x : ascii) (a b : string) :
  has_char x (a +:+ b) = has_char x a || has_char x b.
Proof.
  induction a as [|z a IH]; [reflexivity|]. rewrite app_cons.
  cbn [has_char]. now rewrite IH, orb_assoc.
Qed.

(** A whole amount followed by B or M, in either case, is normalised to
    that many billions or millions exactly, as long as the result is below
    2^53; without suffix it is normalised to itself. *)
Theorem normalize_whole_amount (d : string) (c : ascii) (k : Z) :
  d <> "" -> all_chars is_digit d = true ->
  (lower_char c = "b"%char /\ k = 1000000000)
  \/ (lower_char c = "m"%char /\ k = 1000000) ->
  digits_value d * k < 2 ^ 53 ->
  as_integer (parse_financial_value (VStr (d +:+ String c "")))
  = Some (digits_value d * k)
  /\ as_integer (parse_financial_value (VStr d)) = Some (digits_value d).
Proof.
  intros Hne Hd Hc Hk. pose proof (digits_value_nonneg d) as H0.
  assert (Cd : clean d = d).
  { rewrite clean_spec, (lower_digits d Hd).
    rewrite (remove_char_id "$" d), (remove_char_id "," d),
      (remove_char_id "%" d); try reflexivity;
      apply has_char_digits_only; auto. }
  assert (Nb : has_char "b" d = false) by now apply has_char_digits_only.
  assert (Nm : has_char "m" d = false) by now apply has_char_digits_only.
  assert (Hf := float_of_digits d Hne Hd).
  unfold parse_financial_value. cbn [is_number]. split.
  - rewrite clean_app, Cd.
    assert (Cc : clean (String c "") = String (lower_char c) "").
    { rewrite clean_spec. cbn [lower].
      destruct Hc as [[-> _]|[-> _]]; reflexivity. }
    rewrite Cc. unfold suffix.
    rewrite !contains_char, !has_char_app, Nb, Nm, !replace_char,
      !remove_char_app.
    destruct Hc as [[-> ->]|[-> ->]].
    + change (has_char "b" "b") with true.
      change (remove_char "b" "b") with "".
      cbn [orb]. rewrite (remove_char_id "b" d Nb), app_nil_r, Hf.
      cbn [as_integer]. apply F64_mul_int_exact; lia.
    + change (has_char "b" "m") with false.
      change (has_char "m" "m") with true.
      change (remove_char "m" "m") with "".
      cbn [orb]. rewrite (remove_char_id "m" d Nm), app_nil_r, Hf.
      cbn [as_integer]. apply F64_mul_int_exact; lia.
  - rewrite Cd. unfold suffix. rewrite !contains_char, Nb, Nm, Hf.
    cbn [as_integer]. rewrite F64_mul_int_exact by nia. f_equal. lia.
Qed.

Lemma normalize_whole_amount_witness :
  as_integer (parse_financial_value (VStr ("0250" +:+ "M")))
  = Some (digits_value "0250" * 1000000)
  /\ as_integer (parse_financial_value (VStr "0250"))
     = Some (digits_value "0250").
Proof.
  apply (normalize_whole_amount "0250" "M" 1000000);
    [discriminate|reflexivity|right; split; reflexivity|reflexivity].
Defined.

(** ** The FilingLocator and the handler together *)

Lemma locate_reference (get_filings : Query -> M Response)
  (ticker : string) (r : Response) (f : Filing) (fs : list Filing)
  (d : DocFile) (ds : list DocFile) (url doc : string) :
  get_filings (make_query ticker) = ret r ->
  filings r = Some (f :: fs) ->
  linkToFilingDetails f = Some url ->
  documentFormatFiles f = Some (d :: ds) ->
  documentUrl d = Some doc ->
  get_10k_report_text get_filings ticker = (url, Some doc).
Proof.
  intros Hq Hf Hl Hd Hu. unfold get_10k_report_text, locate_body.
  rewrite Hq. cbn [bind ret]. rewrite Hf. cbn [bind item first ret].
  rewrite Hl. cbn [bind item first ret]. rewrite Hd.
  cbn [bind item first ret]. now rewrite Hu.
Qed.

(** The locator answers with the two links of a filing exactly when the
    first filing of the response has a detail link and a first document
    file with a link; these are the links it returns. *)
Theorem locate_reference_iff (get_filings : Query -> M Response)
  (ticker url doc : string) :
  get_10k_report_text get_filings ticker = (url, Some doc)
  <-> exists r f fs d ds,
        get_filings (make_query ticker) = ret r
        /\ filings r = Some (f :: fs)
        /\ linkToFilingDetails f = Some url
        /\ documentFormatFiles f = Some (d :: ds)
        /\ documentUrl d = Some doc.
Proof.
  unfold get_10k_report_text, locate_body. split.
  - destruct (get_filings (make_query ticker)) as [e|r];
      cbn [bind item first ret raise]; [discriminate|].
    destruct (filings r) as [fs|] eqn:Hf; cbn [bind item first ret raise];
      [|discriminate].
    destruct fs as [|f fs]; cbn [bind item first ret raise]; [discriminate|].
    destruct (linkToFilingDetails f) as [u|] eqn:Hl;
      cbn [bind item first ret raise]; [|discriminate].
    destruct (documentFormatFiles f) as [files|] eqn:Hd;
      cbn [bind item first ret raise]; [|discriminate].
    destruct files as [|d ds]; cbn [bind item first ret raise];
      [discriminate|].
    destruct (documentUrl d) as [t|] eqn:Hu;
      cbn [bind item first ret raise]; [|discriminate].
    intros [= -> ->]. exists r, f, fs, d, ds. now rewrite Hf, Hl, Hd, Hu.
  - intros (r & f & fs & d & ds & Hq & Hf & Hl & Hd & Hu).
    exact (locate_reference _ _ _ _ _ _ _ _ _ Hq Hf Hl Hd Hu).
Qed.

(** Whatever is raised inside the [try] block of the locator (by the
    filings search, by a missing key, by an empty list) ends as an error
    shown to the user: nothing is stored and the dashboard is not shown. *)
Theorem locate_exception_reported (get_filings : Query -> M Response)
  (upper : string -> string) (ticker : string)
  (data : gmap string sessval) (e : exn) :
  locate_body get_filings ticker = raise e ->
  run_full_analysis get_filings upper ticker data
  = (∅, [st_error (COULD_NOT_FETCH +:+ exn_str e)])
  /\ dashboard_shown
       (fst (run_full_analysis get_filings upper ticker data)) = false.
Proof.
  intros He.
  assert (E : run_full_analysis get_filings upper ticker data
              = (∅, [st_error (COULD_NOT_FETCH +:+ exn_str e)])).
  { unfold run_full_analysis, get_10k_report_text. rewrite He.
    unfold raise. now rewrite could_not_fetch_found. }
  split; [exact E|]. now rewrite E.
Qed.

Lemma locate_exception_reported_witness :
  run_full_analysis (fun _ => raise (ApiError "timeout")) (fun s => s)
    "MSFT" ∅
  = (∅, [st_error (COULD_NOT_FETCH +:+ "timeout")]).
Proof.
  apply (locate_exception_reported (fun _ => raise (ApiError "timeout"))
           (fun s => s) "MSFT" ∅ (ApiError "timeout")).
  reflexivity.
Defined.

(** When the first filing of the response has both links and its detail
    link does not contain "Could not fetch", the handler stores the detail
    link and the ticker as it was typed, and nothing else: the document
    link is dropped.  The dashboard is shown. *)
Theorem filing_stored (get_filings : Query -> M Response)
  (upper : string -> string) (ticker : string)
  (data : gmap string sessval) (r : Response) (f : Filing)
  (fs : list Filing) (d : DocFile) (ds : list DocFile) (url doc : string) :
  get_filings (make_query ticker) = ret r ->
  filings r = Some (f :: fs) ->
  linkToFilingDetails f = Some url ->
  documentFormatFiles f = Some (d :: ds) ->
  documentUrl d = Some doc ->
  contains "Could not fetch" url = false ->
  run_full_analysis get_filings upper ticker data
  = (<["company_name" := SStr ticker]> (<["filing_url" := SStr url]> ∅),
     [st_success ("Report found for " +:+ upper ticker +:+ "!")])
  /\ dashboard_inputs
       (fst (run_full_analysis get_filings upper ticker data))
     = Some (ticker, url).
Proof.
  intros Hq Hf Hl Hd Hu Hc.
  assert (L : get_10k_report_text get_filings ticker = (url, Some doc)).
  { exact (locate_reference _ _ _ _ _ _ _ _ _ Hq Hf Hl Hd Hu). }
  assert (E : run_full_analysis get_filings upper ticker data
              = (<["company_name" := SStr ticker]>
                   (<["filing_url" := SStr url]> ∅),
                 [st_success ("Report found for " +:+ upper ticker +:+ "!")])).
  { unfold run_full_analysis. now rewrite L, Hc. }
  split; [exact E|]. rewrite E. cbn [fst]. unfold dashboard_inputs.
  rewrite lookup_insert_eq, lookup_insert_ne by discriminate.
  now rewrite lookup_insert_eq.
Qed.

Lemma filing_stored_witness :
  dashboard_inputs
    (fst (run_full_analysis
            (fun _ => ret {| filings :=
               Some [ {| linkToFilingDetails := Some "https://sec/d";
                         documentFormatFiles :=
                           Some [ {| documentUrl := Some "https://sec/f" |} ]
                      |} ] |})
            (fun s => s) "msft" ∅))
  = Some ("msft", "https://sec/d").
Proof.
  apply (filing_stored _ (fun s => s) "msft" ∅
           {| filings :=
               Some [ {| linkToFilingDetails := Some "https://sec/d";
                         documentFormatFiles :=
                           Some [ {| documentUrl := Some "https://sec/f" |} ]
                      |} ] |}
           {| linkToFilingDetails := Some "https://sec/d";
              documentFormatFiles :=
                Some [ {| documentUrl := Some "https://sec/f" |} ] |}
           [] {| documentUrl := Some "https://sec/f" |} []
           "https://sec/d" "https://sec/f"); reflexivity.
Defined.

(** ** The session across the handler and the tabs *)

Lemma session_ok_empty : session_ok ∅.
Proof.
  split.
  - intros k v H. now rewrite lookup_empty in H.
  - rewrite !lookup_empty. split; intros [x Hx]; discriminate.
Qed.

Lemma session_ok_filing (url company : string) :
  session_ok (<["company_name" := SStr company]>
                (<["filing_url" := SStr url]> ∅)).
Proof.
  split.
  - intros k v. rewrite lookup_insert.
    destruct (decide ("company_name" = k)) as [<-|Hk];
      [intros [= <-]; now right|].
    rewrite lookup_insert. destruct (decide ("filing_url" = k)) as [<-|Hk2];
      [intros [= <-]; now left|].
    now rewrite lookup_empty.
  - rewrite lookup_insert_ne by discriminate.
    rewrite !lookup_insert_eq. split; eauto.
Qed.

(** Whatever the session was, after the handler it is a session as the
    program makes it; so is the empty session the program starts from. *)
Theorem handler_session_ok (get_filings : Query -> M Response)
  (upper : string -> string) (ticker : string)
  (data : gmap string sessval) :
  session_ok ∅
  /\ session_ok (fst (run_full_analysis get_filings upper ticker data)).
Proof.
  split; [apply session_ok_empty|].
  unfold run_full_analysis, reset.
  destruct (get_10k_report_text get_filings ticker) as [url full].
  destruct (contains "Could not fetch" url); cbn [fst];
    [apply session_ok_empty|apply session_ok_filing].
Qed.

(** Loading a tab keeps the session as the program makes it, and such a
    session, when the dashboard is shown, has the two strings the
    dashboard reads: no key is missed. *)
Theorem tab_session_ok (generate_content : string -> string)
  (kind : TaskKind) (url company market_shock : string)
  (data : gmap string sessval) :
  session_ok data ->
  session_ok
    (fst (load_tab generate_content kind url company market_shock data))
  /\ (dashboard_shown data = true ->
      exists c u, dashboard_inputs data = Some (c, u)).
Proof.
  intros [Hv Hb]. split.
  - assert (S : forall raw, session_ok (fst (store_answer kind raw data))).
    { intros raw. unfold store_answer.
      destruct (json_loads (unfence raw)) as [obj|]; cbn [fst];
        [|now split].
      split.
      - intros k v. rewrite lookup_insert.
        destruct (decide (session_key kind = k)) as [<-|Hk];
          [intros [= <-]; eauto|apply Hv].
      - rewrite !lookup_insert_ne by (destruct kind; discriminate).
        exact Hb. }
    unfold load_tab.
    destruct kind; try apply S;
      match goal with
      | |- context [data !! ?k] => destruct (data !! k)
      end; try apply S; now split.
  - intros Hs. unfold dashboard_shown in Hs. apply bool_decide_eq_true in Hs.
    pose proof (proj1 Hb Hs) as [c Hc]. destruct Hs as [u Hu].
    unfold dashboard_inputs. rewrite Hc, Hu.
    pose proof (Hv _ _ Hc) as Kc. pose proof (Hv _ _ Hu) as Ku.
    destruct c as [c|j].
    + destruct u as [u|j]; [eauto|].
      destruct Ku as [[] Hk]; discriminate.
    + destruct Kc as [[] Hk]; discriminate.
Qed.

Lemma tab_session_ok_witness :
  session_ok
    (fst (load_tab (fun _ => "{}") FinancialAnalysis "u" "c" ""
            (<["company_name" := SStr "c"]> (<["filing_url" := SStr "u"]> ∅)))).
Proof.
  apply (tab_session_ok (fun _ => "{}") FinancialAnalysis "u" "c" ""
           (<["company_name" := SStr "c"]> (<["filing_url" := SStr "u"]> ∅))).
  apply session_ok_filing.
Defined.

(** Loading a tab changes nothing under the other keys, and a load that
    reports an error changes nothing at all: the answers of the other
    analyses and a former answer of the same analysis stay. *)
Theorem load_tab_frame (generate_content : string -> string)
  (kind : TaskKind) (url company market_shock : string)
  (data : gmap string sessval) (k : string) :
  k <> session_key kind ->
  fst (load_tab generate_content kind url company market_shock data) !! k
  = data !! k
  /\ (snd (load_tab generate_content kind url company market_shock data) = []
      \/ fst (load_tab generate_content kind url company market_shock data)
         = data).
Proof.
  intros Hk.
  assert (S : forall raw,
            fst (store_answer kind raw data) !! k = data !! k
            /\ (snd (store_answer kind raw data) = []
                \/ fst (store_answer kind raw data) = data)).
  { intros raw. unfold store_answer.
    destruct (json_loads (unfence raw)) as [obj|]; cbn [fst snd].
    - split; [|now left]. now rewrite lookup_insert_ne.
    - split; [reflexivity|now right]. }
  unfold load_tab.
  destruct kind; try apply S;
    match goal with
    | |- context [data !! ?key] => destruct (data !! key)
    end; try apply S; cbn [fst snd]; auto.
Qed.

Lemma load_tab_frame_witness :
  fst (load_tab (fun _ => "{}") SwotAnalysis "u" "c" ""
         (<["financials" := SJson JNull]> ∅)) !! "financials"
  = (<["financials" := SJson JNull]> ∅ : gmap string sessval) !! "financials".
Proof.
  apply (load_tab_frame (fun _ => "{}") SwotAnalysis "u" "c" ""
           (<["financials" := SJson JNull]> ∅) "financials").
  discriminate.
Defined.

(** Once one of the first two tabs has an answer in the session, loading
    it again asks nothing and changes nothing, whatever the model would
    answer now. *)
Theorem load_tab_once (generate_content generate_content' : string -> string)
  (kind : TaskKind) (url company market_shock : string)
  (data : gmap string sessval) :
  kind <> RiskSimulation ->
  is_Some (fst (load_tab generate_content kind url company market_shock data)
           !! session_key kind) ->
  load_tab generate_content' kind url company market_shock
    (fst (load_tab generate_content kind url company market_shock data))
  = (fst (load_tab generate_content kind url company market_shock data), []).
Proof.
  intros Hk [v Hv]. now apply (load_tab_cached _ _ _ _ _ _ v).
Qed.

Lemma load_tab_once_witness :
  load_tab (fun _ => "[]") FinancialAnalysis "u" "c" ""
    (fst (load_tab (fun _ => "{}") FinancialAnalysis "u" "c" "" ∅))
  = (fst (load_tab (fun _ => "{}") FinancialAnalysis "u" "c" "" ∅), []).
Proof.
  apply (load_tab_once (fun _ => "{}") (fun _ => "[]") FinancialAnalysis
           "u" "c" "" ∅); [discriminate|].
  unfold load_tab. rewrite lookup_empty. unfold store_answer.
  replace (json_loads
             (unfence (answer (fun _ => "{}") FinancialAnalysis "u" "c" "")))
    with (Some (JDict [])) by (vm_compute; reflexivity).
  cbn [fst]. rewrite lookup_insert_eq. eauto.
Defined.

(** With no filing for the ticker the dashboard is shown all the same, and
    the financial tab asks the model about the not-found message as if it
    were the link of a report. *)
Theorem not_found_sent_to_model (get_filings : Query -> M Response)
  (generate_content upper : string -> string) (ticker market_shock : string)
  (data : gmap string sessval) (r : Response) :
  get_filings (make_query ticker) = ret r ->
  filings r = Some [] ->
  dashboard_tab generate_content FinancialAnalysis market_shock
    (fst (run_full_analysis get_filings upper ticker data))
  = Some (store_answer FinancialAnalysis
            (generate_content
               (financial_head
                +:+ "From the 10-K report at the URL: "
                +:+ "No 10-K filings found for this ticker."
                +:+ financial_tail))
            (fst (run_full_analysis get_filings upper ticker data))).
Proof.
  intros Hq Hf.
  assert (E : run_full_analysis get_filings upper ticker data
              = (<["company_name" := SStr ticker]>
                   (<["filing_url" := SStr NO_FILINGS]> ∅),
                 [st_success ("Report found for " +:+ upper ticker +:+ "!")])).
  { unfold run_full_analysis, get_10k_report_text, locate_body.
    rewrite Hq. cbn [bind ret]. now rewrite Hf. }
  rewrite E. cbn [fst]. unfold dashboard_tab, dashboard_shown,
    dashboard_inputs.
  rewrite lookup_insert_eq, lookup_insert_ne by discriminate.
  rewrite lookup_insert_eq.
  rewrite bool_decide_eq_true_2 by eauto.
  unfold load_tab. cbn [session_key].
  rewrite !lookup_insert_ne by discriminate. rewrite lookup_empty.
  unfold answer, conduct_financial_analysis, financial_prompt,
    financial_input, NO_FILINGS.
  now rewrite !app_assoc.
Qed.

Lemma not_found_sent_to_model_witness :
  dashboard_tab (fun _ => "{}") FinancialAnalysis ""
    (fst (run_full_analysis (fun _ => ret {| filings := Some [] |})
            (fun s => s) "msft" ∅))
  = Some (store_answer FinancialAnalysis "{}"
            (fst (run_full_analysis (fun _ => ret {| filings := Some [] |})
                    (fun s => s) "msft" ∅))).
Proof.
  apply (not_found_sent_to_model (fun _ => ret {| filings := Some [] |})
           (fun _ => "{}") (fun s => s) "msft" "" ∅ {| filings := Some [] |});
    reflexivity.
Defined.

(** ** More on the ResponseParser *)

(** A fence without tag is as transparent as a fence tagged [json]. *)
Lemma unfence_fenced_plain (s : string) :
  unfence (fenced_plain s)
  = nl +:+ replace fence "" (replace fence_json "" s) +:+ nl.
Proof.
  unfold unfence.
  assert (E : strip (fenced_plain s) = fenced_plain s).
  { assert (F : fenced_plain s
                = String "`" (("``" +:+ nl +:+ s +:+ nl +:+ "``")
                              +:+ String "`" "")).
    { unfold fenced_plain, fence. rewrite !app_assoc. reflexivity. }
    rewrite F. now apply strip_id. }
  rewrite E. unfold fenced_plain, nl.
  change (fence +:+ String LF "" +:+ s +:+ String LF "" +:+ fence)
    with (fence +:+ String LF (s +:+ String LF fence)).
  rewrite replace_sep by (discriminate || reflexivity).
  rewrite replace_sep by (discriminate || reflexivity).
  change (replace fence_json "" fence) with fence.
  rewrite replace_sep by (discriminate || reflexivity).
  rewrite replace_sep by (discriminate || reflexivity).
  change (replace fence "" fence) with "".
  reflexivity.
Qed.

(** A fence without tag around the answer is as transparent as the
    tagged one: what is decoded and stored is what is decoded and stored
    without the fence. *)
Theorem plain_fence_transparent (body : string) (kind : TaskKind)
  (data : gmap string sessval) :
  json_loads (unfence (fenced_plain ("{" +:+ body +:+ "}")))
  = json_loads (unfence ("{" +:+ body +:+ "}"))
  /\ fst (store_answer kind (fenced_plain ("{" +:+ body +:+ "}")) data)
     = fst (store_answer kind ("{" +:+ body +:+ "}") data).
Proof.
  assert (E : json_loads (unfence (fenced_plain ("{" +:+ body +:+ "}")))
              = json_loads (unfence ("{" +:+ body +:+ "}"))).
  { rewrite unfence_fenced_plain, json_loads_nl. unfold unfence.
    replace (strip ("{" +:+ body +:+ "}")) with ("{" +:+ body +:+ "}");
      [reflexivity|].
    symmetry. exact (strip_id "{" "}" body eq_refl eq_refl). }
  split; [exact E|]. unfold store_answer. rewrite E.
  now destruct (json_loads (unfence ("{" +:+ body +:+ "}"))).
Qed.

(** No JSON value starts with a character outside [value_start]. *)
Lemma scan_once_bad_start (n : nat) (c : ascii) (r : string) :
  value_start c = false -> scan_once (S n) (String c r) = Error.
Proof.
  unfold value_start, dq. intros [Hd Hc]%orb_false_iff.
  rewrite app_cons, app_nil_l in Hc. cbn [has_char] in Hc.
  repeat match type of Hc with
         | _ || _ = false =>
             let H := fresh "H" in
             apply orb_false_iff in Hc as [H Hc];
             rewrite Ascii.eqb_sym in H
         end.
  cbn [scan_once]. rewrite H, H0, H1.
  rewrite !prefix_cons. rewrite (Ascii.eqb_sym "n"), H2.
  rewrite (Ascii.eqb_sym "t"), H3, (Ascii.eqb_sym "f"), H4.
  unfold match_number. rewrite H7. unfold number_body. rewrite Hd.
  now rewrite (Ascii.eqb_sym "N"), H5, (Ascii.eqb_sym "I"), H6,
    (Ascii.eqb_sym "-"), H7.
Qed.

Lemma json_loads_bad_start (s : string) :
  match skip_ws s with
  | EmptyString => true
  | String c _ => negb (value_start c)
  end = true ->
  json_loads s = None.
Proof.
  unfold json_loads, decode, fuel_for. destruct (skip_ws s) as [|c r].
  - reflexivity.
  - intros H%negb_true_iff. now rewrite scan_once_bad_start.
Qed.

(** An answer is rejected when, its fences and the white space before it
    removed, nothing is left or what is left starts with a character no
    JSON value starts with: prose before the JSON is not skipped. *)
Theorem answer_must_start_value (kind : TaskKind) (raw : string)
  (data : gmap string sessval) :
  match skip_ws (unfence raw) with
  | EmptyString => true
  | String c _ => negb (value_start c)
  end = true ->
  store_answer kind raw data
  = (data, [st_error (decode_error kind); st_code raw]).
Proof.
  intros H. unfold store_answer. now rewrite json_loads_bad_start.
Qed.

Lemma answer_must_start_value_witness :
  store_answer SwotAnalysis "Here is the JSON: {}" ∅
  = (∅, [st_error (decode_error SwotAnalysis);
         st_code "Here is the JSON: {}"]).
Proof.
  apply (answer_must_start_value SwotAnalysis "Here is the JSON: {}" ∅).
  reflexivity.
Defined.

Lemma unfence_fenced_capitals (s : string) :
  unfence (fenced_capitals s)
  = "JSON" +:+ nl +:+ replace fence "" (replace fence_json "" s) +:+ nl.
Proof.
  unfold unfence.
  assert (E : strip (fenced_capitals s) = fenced_capitals s).
  { assert (F : fenced_capitals s
                = String "`" (("``JSON" +:+ nl +:+ s +:+ nl +:+ "``")
                              +:+ String "`" "")).
    { unfold fenced_capitals, fence. rewrite !app_assoc. reflexivity. }
    rewrite F. now apply strip_id. }
  rewrite E. unfold fenced_capitals, nl.
  change ("```JSON" +:+ String LF "" +:+ s +:+ String LF "" +:+ fence)
    with ("```JSON" +:+ String LF (s +:+ String LF fence)).
  rewrite replace_sep by (discriminate || reflexivity).
  rewrite replace_sep by (discriminate || reflexivity).
  change (replace fence_json "" "```JSON") with "```JSON".
  change (replace fence_json "" fence) with fence.
  rewrite replace_sep by (discriminate || reflexivity).
  rewrite replace_sep by (discriminate || reflexivity).
  change (replace fence "" "```JSON") with "JSON".
  change (replace fence "" fence) with "".
  reflexivity.
Qed.

(** The tag of a fence is matched as written: an answer in a fence tagged
    JSON in capitals is rejected, whatever is between the fences. *)
Theorem capitals_fence_rejected (s : string) (kind : TaskKind)
  (data : gmap string sessval) :
  store_answer kind (fenced_capitals s) data
  = (data, [st_error (decode_error kind); st_code (fenced_capitals s)]).
Proof.
  unfold store_answer.
  rewrite unfence_fenced_capitals, json_loads_bad_start; reflexivity.
Qed.

Lemma all_spaces_lstrip (sp : ascii -> bool) (b : string) :
  all_chars sp b = true -> lstrip sp b = "".
Proof.
  induction b as [|c b IH]; [reflexivity|]. cbn [all_chars lstrip].
  intros [-> Hb]%andb_true_iff. now apply IH.
Qed.

Lemma all_spaces_rstrip (sp : ascii -> bool) (b : string) :
  all_chars sp b = true -> rstrip sp b = "".
Proof.
  induction b as [|c b IH]; [reflexivity|]. cbn [all_chars rstrip].
  intros [-> Hb]%andb_true_iff. now rewrite IH.
Qed.

Lemma lstrip_app_spaces (sp : ascii -> bool) (a s : string) :
  all_chars sp a = true -> lstrip sp (a +:+ s) = lstrip sp s.
Proof.
  induction a as [|c a IH]; [reflexivity|]. rewrite app_cons.
  cbn [all_chars lstrip]. intros [-> Ha]%andb_true_iff. now apply IH.
Qed.

Lemma rstrip_app_spaces (sp : ascii -> bool) (s b : string) :
  all_chars sp b = true -> rstrip sp (s +:+ b) = rstrip sp s.
Proof.
  intros Hb. induction s as [|c s IH].
  - now rewrite app_nil_l, all_spaces_rstrip.
  - rewrite app_cons. cbn [rstrip]. now rewrite IH.
Qed.

Lemma strip_app_spaces (sp : ascii -> bool) (a s b : string) :
  all_chars sp a = true -> all_chars sp b = true ->
  strip_with sp (a +:+ s +:+ b) = strip_with sp s.
Proof.
  intros Ha Hb. unfold strip_with. rewrite lstrip_app_spaces by exact Ha.
  induction s as [|c s IH].
  - now rewrite app_nil_l, all_spaces_lstrip.
  - rewrite app_cons. cbn [lstrip]. destruct (sp c); [exact IH|].
    exact (rstrip_app_spaces sp (String c s) b Hb).
Qed.

(** White space before and after the answer, of any kind [str.strip]
    removes, changes nothing to what is decoded and stored. *)
Theorem answer_whitespace (a raw b : string) (kind : TaskKind)
  (data : gmap string sessval) :
  all_chars is_space a = true -> all_chars is_space b = true ->
  unfence (a +:+ raw +:+ b) = unfence raw
  /\ fst (store_answer kind (a +:+ raw +:+ b) data)
     = fst (store_answer kind raw data).
Proof.
  intros Ha Hb.
  assert (E : unfence (a +:+ raw +:+ b) = unfence raw).
  { unfold unfence, strip. now rewrite strip_app_spaces. }
  split; [exact E|]. unfold store_answer. rewrite E.
  now destruct (json_loads (unfence raw)).
Qed.

Lemma answer_whitespace_witness :
  unfence ((" " +:+ nl) +:+ "{}" +:+ (nl +:+ "  ")) = unfence "{}".
Proof.
  apply (answer_whitespace (" " +:+ nl) "{}" (nl +:+ "  ")
           FinancialAnalysis ∅); reflexivity.
Defined.

(** ** Reading a decoded answer *)

(** The metrics of the financial tab raise [AttributeError] exactly when
    the answer is not a dictionary or one of its two sections is there
    and is not a dictionary. *)
Theorem financial_metrics_raises (data : JSON) :
  financial_metrics data = None
  <-> section_ok data "revenue_analysis"
      && section_ok data "profitability" = false.
Proof.
  unfold financial_metrics, field, get, section_ok.
  destruct data as [| | | | |l|d]; try (split; reflexivity).
  destruct (dict_get (codes "revenue_analysis") d) as [ra|],
    (dict_get (codes "profitability") d) as [pf|];
    try destruct ra; try destruct pf; cbn [is_record andb];
    repeat match goal with
           | |- context [dict_get ?k ?x] => destruct (dict_get k x)
           end;
    split; congruence.
Qed.

(** ** More on the prompt builders *)

Lemma take_all (n : nat) (s : string) :
  (String.length s <= n)%nat -> take n s = s.
Proof.
  revert s. induction n as [|n IH]; intros [|c r] H; cbn in H;
    try reflexivity; try lia.
  cbn [take]. rewrite IH by lia. reflexivity.
Qed.

(** An inline document of at most 30000 characters is in the prompt as a
    whole, for each of the three builders. *)
Theorem short_text_embedded_whole (doc company shock : string) :
  (String.length doc <= TEXT_LIMIT)%nat ->
  financial_prompt doc false
  = financial_head +:+ "From the following 10-K report text: " +:+ doc
    +:+ financial_tail
  /\ swot_prompt doc company false
     = swot_head +:+ "From the following 10-K report text for "
       +:+ company +:+ ": " +:+ doc +:+ swot_tail
  /\ risk_prompt doc company shock false
     = risk_head +:+ "From the following 10-K report text for "
       +:+ company +:+ ": " +:+ doc +:+ risk_middle +:+ q shock
       +:+ risk_tail.
Proof.
  intros H.
  unfold financial_prompt, swot_prompt, risk_prompt, financial_input,
    company_input.
  rewrite (take_all _ _ H), !app_assoc. repeat split; reflexivity.
Qed.

Lemma short_text_embedded_whole_witness :
  financial_prompt "Item 1. Business" false
  = financial_head +:+ "From the following 10-K report text: "
    +:+ "Item 1. Business" +:+ financial_tail.
Proof.
  apply (short_text_embedded_whole "Item 1. Business" "" "").
  unfold TEXT_LIMIT. cbn [String.length]. lia.
Defined.

(** The length of a prompt for an inline document is the length of the
    prompt for an empty document plus the length of the document, up to
    30000: however long the document, the prompt is bounded. *)
Theorem inline_prompt_length (doc company shock : string) :
  String.length (financial_prompt doc false)
  = (String.length (financial_prompt "" false)
     + Nat.min TEXT_LIMIT (String.length doc))%nat
  /\ String.length (swot_prompt doc company false)
     = (String.length (swot_prompt "" company false)
        + Nat.min TEXT_LIMIT (String.length doc))%nat
  /\ String.length (risk_prompt doc company shock false)
     = (String.length (risk_prompt "" company shock false)
        + Nat.min TEXT_LIMIT (String.length doc))%nat.
Proof.
  assert (T0 : take TEXT_LIMIT "" = "") by now destruct TEXT_LIMIT.
  unfold financial_prompt, swot_prompt, risk_prompt, financial_input,
    company_input.
  rewrite T0, !length_app, !length_take. cbn [String.length]. lia.
Qed.

(** The example each prompt shows to the model is accepted by the decoder
    and has every key the specification requires of the analysis; the
    metrics of the financial tab read from the first one are those of the
    example. *)
Theorem prompt_examples_decode :
  match json_loads (from_brace financial_tail),
        json_loads (from_brace swot_tail),
        json_loads (from_brace risk_tail) with
  | Some fin, Some swot, Some sim =>
      spec_schema_ok FinancialAnalysis fin = true
      /\ spec_schema_ok SwotAnalysis swot = true
      /\ spec_schema_ok RiskSimulation sim = true
      /\ financial_metrics fin
         = Some [JStr (codes "100B"); JStr (codes "11.1%");
                 JStr (codes "20B"); JStr (codes "20%")]
  | _, _, _ => False
  end.
Proof. vm_compute. repeat split; reflexivity. Qed.

(** ** More on the removal of fences *)

Lemma unfence_braces (body : string) :
  unfence ("{" +:+ body +:+ "}")
  = "{" +:+ replace fence "" (replace fence_json "" body) +:+ "}".
Proof.
  unfold unfence.
  replace (strip ("{" +:+ body +:+ "}")) with ("{" +:+ body +:+ "}")
    by (symmetry; exact (strip_id "{" "}" body eq_refl eq_refl)).
  change ("{" +:+ body +:+ "}") with ("" +:+ String "{" (body +:+ String "}" "")).
  rewrite replace_sep by (discriminate || reflexivity).
  rewrite replace_sep by (discriminate || reflexivity).
  change (replace fence_json "" "") with "". rewrite app_nil_l.
  change (String "{" (replace fence_json "" body +:+ String "}" ""))
    with ("" +:+ String "{" (replace fence_json "" body +:+ String "}" "")).
  rewrite replace_sep by (discriminate || reflexivity).
  rewrite replace_sep by (discriminate || reflexivity).
  reflexivity.
Qed.

(** Fences on the same line as the answer are removed as well: what is
    decoded is what is decoded without them. *)
Theorem tight_fence_transparent (body : string) (kind : TaskKind)
  (data : gmap string sessval) :
  unfence (fenced_tight ("{" +:+ body +:+ "}"))
  = unfence ("{" +:+ body +:+ "}")
  /\ fst (store_answer kind (fenced_tight ("{" +:+ body +:+ "}")) data)
     = fst (store_answer kind ("{" +:+ body +:+ "}") data).
Proof.
  assert (E : unfence (fenced_tight ("{" +:+ body +:+ "}"))
              = unfence ("{" +:+ body +:+ "}")).
  { rewrite unfence_braces. unfold unfence.
    assert (S : strip (fenced_tight ("{" +:+ body +:+ "}"))
                = fenced_tight ("{" +:+ body +:+ "}")).
    { assert (F : fenced_tight ("{" +:+ body +:+ "}")
                  = String "`" (("``json" +:+ "{" +:+ body +:+ "}" +:+ "``")
                                +:+ String "`" "")).
      { unfold fenced_tight, fence_json, fence. rewrite !app_assoc.
        reflexivity. }
      rewrite F. now apply strip_id. }
    rewrite S. unfold fenced_tight.
    replace (fence_json +:+ ("{" +:+ body +:+ "}") +:+ fence)
      with (fence_json +:+ String "{" (body +:+ String "}" fence))
      by (rewrite !app_assoc; reflexivity).
    rewrite replace_sep by (discriminate || reflexivity).
    rewrite replace_sep by (discriminate || reflexivity).
    change (replace fence_json "" fence_json) with "".
    change (replace fence_json "" fence) with fence.
    rewrite app_nil_l.
    change (String "{" (replace fence_json "" body +:+ String "}" fence))
      with ("" +:+ String "{"
                     (replace fence_json "" body +:+ String "}" fence)).
    rewrite replace_sep by (discriminate || reflexivity).
    rewrite replace_sep by (discriminate || reflexivity).
    change (replace fence "" fence) with "".
    reflexivity. }
  split; [exact E|]. unfold store_answer. rewrite E.
  now destruct (json_loads (unfence ("{" +:+ body +:+ "}"))).
Qed.

Lemma prefix_split (p t : string) :
  String.prefix p t = true -> exists r, t = p +:+ r.
Proof.
  revert t. induction p as [|a p IH]; intros t H; [now exists t|].
  destruct t as [|b t]; [discriminate|]. rewrite prefix_cons in H.
  destruct (Ascii.eqb_spec a b) as [->|]; [|discriminate].
  destruct (IH t H) as [r ->]. now exists r.
Qed.

Lemma prefix_fence_graves (t : string) :
  String.prefix fence t = true <-> (3 <= leading_graves t)%nat.
Proof.
  split.
  - intros H. destruct (prefix_split _ _ H) as [r ->].
    change (leading_graves (fence +:+ r)) with (S (S (S (leading_graves r)))).
    lia.
  - intros H.
    destruct t as [|c1 t]; cbn [leading_graves] in H; [lia|].
    destruct (Ascii.eqb_spec c1 "`") as [->|]; [|lia].
    destruct t as [|c2 t]; cbn [leading_graves] in H; [lia|].
    destruct (Ascii.eqb_spec c2 "`") as [->|]; [|lia].
    destruct t as [|c3 t]; cbn [leading_graves] in H; [lia|].
    destruct (Ascii.eqb_spec c3 "`") as [->|]; [|lia].
    unfold fence. rewrite !prefix_cons, !Ascii.eqb_refl. now destruct t.
Qed.

Lemma replace_fence_skip (r : string) :
  replace fence "" (fence +:+ r) = replace fence "" r.
Proof.
  unfold replace, fence. rewrite !app_cons, app_nil_l.
  cbn [replace_from]. rewrite !prefix_cons, !Ascii.eqb_refl.
  replace (String.prefix "" r) with true by now destruct r.
  reflexivity.
Qed.

Lemma replace_fence_keep (c : ascii) (r : string) :
  String.prefix fence (String c r) = false ->
  replace fence "" (String c r) = String c (replace fence "" r).
Proof.
  intros H. unfold replace, fence in *. cbn [replace_from]. now rewrite H.
Qed.

(** After the removal of the fences no run of three grave accents is
    left. *)
Lemma replace_fence_none (n : nat) :
  forall t, (String.length t <= n)%nat ->
    contains fence (replace fence "" t) = false
    /\ (String.prefix fence t = false ->
        leading_graves (replace fence "" t) = leading_graves t).
Proof.
  induction n as [n IH] using lt_wf_ind. intros [|c r] Hn.
  - split; reflexivity.
  - destruct (String.prefix fence (String c r)) eqn:Hp.
    + destruct (prefix_split _ _ Hp) as [r' E]. rewrite E.
      rewrite replace_fence_skip. split; [|discriminate].
      apply (IH (String.length r')); [|lia].
      rewrite E, length_app in Hn. cbn in Hn. lia.
    + rewrite (replace_fence_keep _ _ Hp). cbn [String.length] in Hn.
      destruct (IH (String.length r) ltac:(lia) r ltac:(lia)) as [Hc Hl].
      assert (Hg : (leading_graves (String c r) < 3)%nat).
      { destruct (Nat.lt_ge_cases (leading_graves (String c r)) 3) as [H|H];
          [exact H|]. apply prefix_fence_graves in H. congruence. }
      assert (El : leading_graves (String c (replace fence "" r))
                   = leading_graves (String c r)).
      { cbn [leading_graves] in *.
        destruct (Ascii.eqb c "`"); [|reflexivity]. f_equal. apply Hl.
        destruct (String.prefix fence r) eqn:Hr; [|reflexivity].
        apply prefix_fence_graves in Hr. lia. }
      split; [|intros _; exact El].
      cbn [contains]. rewrite Hc, orb_false_r.
      destruct (String.prefix fence (String c (replace fence "" r))) eqn:Hq;
        [|reflexivity].
      apply prefix_fence_graves in Hq. lia.
Qed.

(** What is handed to the decoder never contains a fence, whatever the
    answer is. *)
Theorem unfence_no_fence (raw : string) :
  contains fence (unfence raw) = false
  /\ contains fence_json (unfence raw) = false.
Proof.
  assert (H : contains fence (unfence raw) = false).
  { unfold unfence. eapply replace_fence_none. reflexivity. }
  split; [exact H|].
  assert (G : forall t, contains fence t = false ->
                        contains fence_json t = false).
  { induction t as [|c t IHt]; [reflexivity|]. cbn [contains].
    intros [Hp Ht]%orb_false_iff. rewrite (IHt Ht), orb_false_r.
    destruct (String.prefix fence_json (String c t)) eqn:Hq; [|reflexivity].
    destruct (prefix_split _ _ Hq) as [r E]. rewrite E in Hp.
    discriminate Hp. }
  now apply G.
Qed.

(** ** The SWOT tab and the simulation tab *)

Lemma iterate_iterable (v : JSON) :
  iterate v = None <-> iterable v = false.
Proof. destruct v; split; (reflexivity || discriminate). Qed.

Lemma quadrant_raises (swot : JSON) (name : string) :
  quadrant swot name = None <-> quadrant_ok swot name = false.
Proof.
  unfold quadrant, swot_items, get, quadrant_ok.
  destruct swot as [| | | | |l|d]; try (split; reflexivity).
  destruct (dict_get (codes name) d) as [v|].
  - apply iterate_iterable.
  - split; discriminate.
Qed.

(** The SWOT tab raises exactly when the answer is not a dictionary or one
    of its four quadrants is there and is not iterable (a number, a truth
    value or null); a quadrant that is a string or a dictionary is listed
    by its characters or its keys. *)
Theorem swot_view_raises (swot : JSON) :
  swot_view swot = None
  <-> quadrant_ok swot "strengths" && quadrant_ok swot "weaknesses"
      && quadrant_ok swot "opportunities" && quadrant_ok swot "threats"
      = false.
Proof.
  unfold swot_view.
  pose proof (quadrant_raises swot "strengths") as Hs.
  pose proof (quadrant_raises swot "weaknesses") as Hw.
  pose proof (quadrant_raises swot "opportunities") as Ho.
  pose proof (quadrant_raises swot "threats") as Ht.
  destruct (quadrant swot "strengths"), (quadrant swot "weaknesses"),
    (quadrant swot "opportunities"), (quadrant swot "threats"),
    (quadrant_ok swot "strengths"), (quadrant_ok swot "weaknesses"),
    (quadrant_ok swot "opportunities"), (quadrant_ok swot "threats");
    cbn [andb]; intuition congruence.
Qed.

Lemma scenario_lines_raises (sim : JSON) (case : string) :
  scenario_lines sim case = None <-> section_ok sim case = false.
Proof.
  unfold scenario_lines, scenario, get, section_ok.
  destruct sim as [| | | | |l|d]; try (split; reflexivity).
  destruct (dict_get (codes case) d) as [v|].
  - destruct v; cbn [is_record]; try (split; reflexivity).
    repeat match goal with
           | |- context [dict_get ?k ?x] => destruct (dict_get k x)
           end; split; discriminate.
  - cbn [dict_get]. split; discriminate.
Qed.

(** The simulation tab raises [AttributeError] exactly when the answer is
    not a dictionary or one of its three cases is there and is not a
    dictionary; the risk can be of any type. *)
Theorem simulation_view_raises (sim : JSON) :
  simulation_view sim = None
  <-> section_ok sim "best_case" && section_ok sim "likely_case"
      && section_ok sim "worst_case" = false.
Proof.
  unfold simulation_view.
  pose proof (scenario_lines_raises sim "best_case") as Hb.
  pose proof (scenario_lines_raises sim "likely_case") as Hl.
  pose proof (scenario_lines_raises sim "worst_case") as Hw.
  assert (Hr : section_ok sim "best_case" = false
               \/ exists r, relevant_risk sim = Some r).
  { unfold relevant_risk, get, section_ok.
    destruct sim as [| | | | |l|d]; try (left; reflexivity). right.
    destruct (dict_get (codes "relevant_risk") d); eauto. }
  destruct Hr as [Hr|[r Hr]].
  - rewrite Hr. cbn [andb]. split; [reflexivity|]. intros _.
    apply Hb in Hr. rewrite Hr. now destruct (relevant_risk sim).
  - rewrite Hr.
    destruct (scenario_lines sim "best_case"),
      (scenario_lines sim "likely_case"),
      (scenario_lines sim "worst_case"),
      (section_ok sim "best_case"),
      (section_ok sim "likely_case"), (section_ok sim "worst_case");
      cbn [andb]; intuition congruence.
Qed.

(** An answer that decodes to anything but a dictionary (a list, a string,
    a number, a truth value, null) is stored without any report, and the
    tab that reads it raises: the three tabs all start with [get]. *)
Theorem non_record_answer_raises (kind : TaskKind) (raw : string)
  (data : gmap string sessval) (v : JSON) :
  json_loads (unfence raw) = Some v ->
  is_record v = false ->
  store_answer kind raw data = (<[session_key kind := SJson v]> data, [])
  /\ financial_metrics v = None
  /\ swot_view v = None
  /\ simulation_view v = None.
Proof.
  intros Hv Hr. unfold store_answer. rewrite Hv.
  split; [reflexivity|]. now destruct v.
Qed.

Lemma non_record_answer_raises_witness :
  store_answer SwotAnalysis "null" ∅
  = (<[session_key SwotAnalysis := SJson JNull]> ∅, [])
  /\ financial_metrics JNull = None
  /\ swot_view JNull = None
  /\ simulation_view JNull = None.
Proof.
  apply (non_record_answer_raises SwotAnalysis "null" ∅ JNull);
    reflexivity.
Defined.
